(** * hack_app: news retrieval and analysis pipeline

    A shallow embedding of [src/hack_app.py] (a Flask application that
    fetches financial news from MarketAux and attaches a summary and a
    sentiment label to every article), and the properties its
    specification states about it.

    Python values are an inductive type [pyval]; dictionaries are stdpp
    finite maps keyed by strings.  The module globals are a record, the
    behaviour of the libraries the program calls (requests, datetime,
    the builtins [str] and [int]) is a type class [Env], and the calls a
    handler makes to its collaborators are recorded in a trace. *)

From Stdlib Require Import ZArith String Ascii Floats.SpecFloat.
From stdpp Require Import gmap strings list fin_maps pretty.

Set Warnings "-register-all".
Open Scope Z_scope.

(** ** Python values *)

(** The values a JSON document decodes to, which are also the values the
    program stores in its dictionaries. *)
Inductive pyval : Type :=
| PyNone
| PyBool (b : bool)
| PyInt (z : Z)
| PyFloat (f : spec_float)
| PyStr (s : string)
| PyList (l : list pyval)
| PyDict (d : gmap string pyval).

(** [bool(v)]: the truth value Python gives to [v] in [if v], [not v]
    and [v or w]. *)
Definition py_truthy (v : pyval) : bool :=
  match v with
  | PyNone => false
  | PyBool b => b
  | PyInt z => negb (z =? 0)
  | PyFloat (S754_zero _) => false
  | PyFloat _ => true
  | PyStr s => negb (String.eqb s EmptyString)
  | PyList l => match l with [] => false | _ => true end
  | PyDict d => negb (bool_decide (d = ∅))
  end.

(** [a or b] returns [a] when it is truthy and [b] otherwise. *)
Definition py_or (a b : pyval) : pyval := if py_truthy a then a else b.

(** [type(v).__name__] *)
Definition type_name (v : pyval) : string :=
  match v with
  | PyNone => "NoneType"
  | PyBool _ => "bool"
  | PyInt _ => "int"
  | PyFloat _ => "float"
  | PyStr _ => "str"
  | PyList _ => "list"
  | PyDict _ => "dict"
  end.

(** [isinstance(v, str)] *)
Definition is_str (v : pyval) : bool :=
  match v with PyStr _ => true | _ => false end.

(** ** Strings *)

(** A Python [str] is a sequence of Unicode code points.  It is held
    here as the UTF-8 encoding of this sequence, one [ascii] per byte,
    which is also how a string literal of this file is read.  Equality,
    concatenation and the substring test agree on the two views; the
    operations that count or classify characters (slicing, [strip])
    work on code points: a code point starts at every byte that is not
    a continuation byte. *)

(** The bytes 10xxxxxx, which continue a code point. *)
Definition is_continuation (c : ascii) : bool :=
  let n := nat_of_ascii c in
  ((128 <=? n) && (n <? 192))%nat.

(** [len(s)]: the number of code points. *)
Fixpoint str_len (s : string) : nat :=
  match s with
  | EmptyString => O
  | String c t => if is_continuation c then str_len t else S (str_len t)
  end.

(** [s[:n]]: the first [n] code points. *)
Fixpoint str_take (n : nat) (s : string) {struct s} : string :=
  match s with
  | EmptyString => EmptyString
  | String c t =>
      if is_continuation c then String c (str_take n t)
      else match n with
           | O => EmptyString
           | S k => String c (str_take k t)
           end
  end.

(** [s.replace(c, r)] for a one-character ASCII pattern [c]. *)
Fixpoint str_replace_char (c : ascii) (r : string) (s : string) : string :=
  match s with
  | EmptyString => EmptyString
  | String a t =>
      if Ascii.eqb a c then r +:+ str_replace_char c r t
      else String a (str_replace_char c r t)
  end.

(** The whitespace of [str.isspace], which is what [str.strip()]
    removes: U+0009 to U+000D, U+001C to U+0020, U+0085, U+00A0,
    U+1680, U+2000 to U+200A, U+2028, U+2029, U+202F, U+205F and
    U+3000.  In UTF-8 they take one, two or three bytes. *)
Definition space1 (a : ascii) : bool :=
  let a := nat_of_ascii a in
  (((9 <=? a) && (a <=? 13)) || ((28 <=? a) && (a <=? 32)))%nat.

Definition space2 (a b : ascii) : bool :=
  let a := nat_of_ascii a in
  let b := nat_of_ascii b in
  ((a =? 194) && ((b =? 133) || (b =? 160)))%nat.

Definition space3 (a b c : ascii) : bool :=
  let a := nat_of_ascii a in
  let b := nat_of_ascii b in
  let c := nat_of_ascii c in
  (((a =? 225) && (b =? 154) && (c =? 128))
   || ((a =? 226) && (b =? 128)
       && (((128 <=? c) && (c <=? 138)) || (c =? 168) || (c =? 169) || (c =? 175)))
   || ((a =? 226) && (b =? 129) && (c =? 159))
   || ((a =? 227) && (b =? 128) && (c =? 128)))%nat.

(** [s.lstrip()] *)
Fixpoint lstrip (s : string) : string :=
  match s with
  | EmptyString => EmptyString
  | String a t =>
      if space1 a then lstrip t
      else match t with
           | String b u =>
               if space2 a b then lstrip u
               else match u with
                    | String c v => if space3 a b c then lstrip v else s
                    | EmptyString => s
                    end
           | EmptyString => s
           end
  end.

(** A string made of whitespace only ([s.isspace()], or [s] empty). *)
Fixpoint all_space (s : string) : bool :=
  match s with
  | EmptyString => true
  | String a t =>
      if space1 a then all_space t
      else match t with
           | String b u =>
               if space2 a b then all_space u
               else match u with
                    | String c v => space3 a b c && all_space v
                    | EmptyString => false
                    end
           | EmptyString => false
           end
  end.

(** [s.rstrip()]: the string is cut where only whitespace follows.  No
    whitespace starts with a continuation byte, so the cut falls
    between two code points. *)
Fixpoint rstrip (s : string) : string :=
  match s with
  | EmptyString => EmptyString
  | String c t => if all_space s then EmptyString else String c (rstrip t)
  end.

(** [s.strip()] *)
Definition strip (s : string) : string := rstrip (lstrip s).

(** [needle in hay] for two strings. *)
Fixpoint contains (needle hay : string) : bool :=
  String.prefix needle hay ||
  match hay with
  | EmptyString => false
  | String _ t => contains needle t
  end.

(** ** Exceptions *)

(** The exceptions the program can meet.  [HTTPError] is a subclass of
    [RequestException]; every class here is a subclass of [Exception]. *)
Inductive exn : Type :=
| HTTPError (status : Z)
| RequestException (detail : string)
| ValueError (detail : string)
| AttributeError (ty attr : string)
| TypeErrorNotContainer (ty : string)
| TypeErrorIndex (ty : string).

Inductive result (A : Type) : Type :=
| Ok (a : A)
| Raise (e : exn).
Arguments Ok {A} a.
Arguments Raise {A} e.

#[global] Instance result_ret : MRet result := λ A a, Ok a.
#[global] Instance result_bind : MBind result := λ A B f m,
  match m with
  | Ok a => f a
  | Raise e => Raise e
  end.

(** [obj.get(key, default)]: defined on dictionaries only. *)
Definition py_get (obj : pyval) (key : string) (dflt : pyval) : result pyval :=
  match obj with
  | PyDict d => Ok (default dflt (d !! key))
  | _ => Raise (AttributeError (type_name obj) "get")
  end.

(** ['key' in obj] for a string key: key membership on a dictionary,
    element membership on a list, substring test on a string; the other
    values are not containers. *)
Definition py_in (key : string) (obj : pyval) : result bool :=
  match obj with
  | PyDict d => Ok (bool_decide (is_Some (d !! key)))
  | PyList l =>
      Ok (existsb (λ x, match x with PyStr s => String.eqb s key | _ => false end) l)
  | PyStr s => Ok (contains key s)
  | _ => Raise (TypeErrorNotContainer (type_name obj))
  end.

(** [obj['key']] for a string key.  The program only indexes after a
    successful ['key' in obj], so the key of a dictionary is present;
    a missing key is reported as the index error as well. *)
Definition py_index (obj : pyval) (key : string) : result pyval :=
  match obj with
  | PyDict d =>
      match d !! key with
      | Some v => Ok v
      | None => Raise (TypeErrorIndex "dict")
      end
  | _ => Raise (TypeErrorIndex (type_name obj))
  end.

(** [v.replace('Z', '+00:00')]: a method of strings only. *)
Definition py_replace_Z (v : pyval) : result string :=
  match v with
  | PyStr s => Ok (str_replace_char "Z"%char "+00:00" s)
  | _ => Raise (AttributeError (type_name v) "replace")
  end.

(** ** The outside world *)

(** What [requests.get] hands back: a response object, whose [json()]
    either decodes the body or raises. *)
Record response := {
  status_code : Z;
  text : string;
  json : result pyval;
}.

(** [requests.get] either returns a response or raises a
    [RequestException] (timeout, connection error); [detail] is the
    text of that exception. *)
Inductive http_outcome : Type :=
| ConnectionFailed (detail : string)
| Responded (r : response).

(** The library behaviour the program relies on and does not define. *)
Class Env := {
  (** [datetime.datetime] *)
  datetime : Type;
  (** [datetime.datetime.fromisoformat(s)]; [None] when it raises
      [ValueError] *)
  fromisoformat : string → option datetime;
  (** [dt.strftime(fmt)] *)
  strftime : datetime → string → string;
  (** [str(x)] for a float *)
  float_str : spec_float → string;
  (** [str(x)] for a list or a dictionary *)
  container_str : pyval → string;
  (** [str(e)] for an exception *)
  exc_str : exn → string;
  (** [int(s)] for a string; [None] when it raises [ValueError] *)
  py_int : string → option Z;
  (** [requests.get(MARKETAUX_NEWS_URL, params, timeout=15)], as a
      function of the parameters [api_token], [search], [limit], [page] *)
  requests_get : string → string → Z → Z → http_outcome;
}.

(** The module globals. *)
Record globals := {
  MARKETAUX_API_KEY : string;
  models_loaded : bool;
  (** [tokenizer(text, max_length=512, truncation=True, ...)] followed by
      [tokenizer.decode(...)]; [None] when either raises *)
  tokenizer : option (string → option string);
  (** [summarizer(text, max_length=100, min_length=20,
      do_sample=False)[0]['summary_text']]; [None] when it raises *)
  summarizer : option (string → option string);
  (** [sentiment_analyzer(text)[0]['label']]; [None] when it raises *)
  sentiment_analyzer : option (string → option string);
}.

Definition MARKETAUX_WEBSITE_URL : string := "https://www.marketaux.com/".

(** ** Traces *)

(** The calls whose number and arguments the specification talks about.
    Calls to the logger are not recorded. *)
Inductive event : Type :=
| EvHttpGet (search : string) (limit page : Z)
| EvAnalyze (content : pyval)
| EvTokenizer (input : string)
| EvSummarizer (input : string)
| EvSentiment (input : string).

Record traced (A : Type) : Type := Traced {
  value : A;
  trace : list event;
}.
Arguments Traced {A} value trace.
Arguments value {A} t.
Arguments trace {A} t.

#[global] Instance traced_ret : MRet traced := λ A a, Traced a [].
#[global] Instance traced_bind : MBind traced := λ A B f m,
  let r := f (value m) in Traced (value r) (trace m ++ trace r).

Definition emit (e : event) : traced unit := Traced tt [e].

(** The arguments of the calls of [analyze_content] in a trace, in order. *)
Definition analyze_calls (t : list event) : list pyval :=
  omap (λ e, match e with EvAnalyze c => Some c | _ => None end) t.

(** The outbound requests in a trace, in order. *)
Definition http_calls (t : list event) : list (string * Z * Z) :=
  omap (λ e, match e with EvHttpGet s l p => Some (s, l, p) | _ => None end) t.

(** ** The program *)

Section App.
Context `{Env} (g : globals).

(** [str(v)], which is also what an f-string does with [{v}]. *)
Definition py_str (v : pyval) : string :=
  match v with
  | PyNone => "None"
  | PyBool true => "True"
  | PyBool false => "False"
  | PyInt z => pretty z
  | PyFloat f => float_str f
  | PyStr s => s
  | PyList _ | PyDict _ => container_str v
  end.

(** *** fetch_marketaux_news *)

(** The result dictionary of [fetch_marketaux_news]: [{"error": msg}] or
    [{"articles": [...]}]. *)
Inductive news_result : Type :=
| NewsError (msg : string)
| NewsArticles (articles : list (gmap string pyval)).

(** Lines 90-93: the text handed to the analysis. *)
Definition content_for_analysis (article : pyval) : result pyval :=
  description ← py_get article "description" PyNone;
  content ←
    (if py_truthy description then Ok description
     else
       snippet ← py_get article "snippet" PyNone;
       if py_truthy snippet then Ok snippet
       else py_get article "title" (PyStr EmptyString));
  Ok (if is_str content then content
      else match content with
           | PyNone => PyStr EmptyString
           | _ => PyStr (py_str content)
           end).

(** Lines 95-105: the date shown for the article. *)
Definition published_utc (article : pyval) : result pyval :=
  published_at ← py_get article "published_at" PyNone;
  if py_truthy published_at then
    replaced ← py_replace_Z published_at;
    match fromisoformat replaced with
    | Some dt_obj => Ok (PyStr (strftime dt_obj "%Y-%m-%d %H:%M"))
    | None => Ok published_at
    end
  else Ok (PyStr "N/A").

(** Lines 89-113: the body of the loop over [raw_articles]. *)
Definition normalize_article (article : pyval) : result (gmap string pyval) :=
  content ← content_for_analysis article;
  published_dt_str ← published_utc article;
  title ← py_get article "title" (PyStr "No Title");
  link ← py_get article "url" (PyStr "#");
  source ← py_get article "source" (PyStr "Unknown Source");
  Ok {[ "title" := title;
        "link" := link;
        "source" := source;
        "published_utc" := published_dt_str;
        "content_for_analysis" := content ]}.

(** [response.raise_for_status()]: raises for a 4xx or 5xx status. *)
Definition raise_for_status (r : response) : result unit :=
  if (400 <=? status_code r) && (status_code r <? 600)
  then Raise (HTTPError (status_code r))
  else Ok tt.

(** Lines 115-126: the [elif] and [else] branches on the decoded body. *)
Definition api_error_result (data : pyval) : result news_result :=
  has_error ← py_in "error" data;
  error_is_dict ←
    (if has_error : bool then
       v ← py_index data "error";
       Ok (match v with PyDict _ => true | _ => false end)
     else Ok false);
  if error_is_dict : bool then
    error_details ← py_index data "error";
    error_message ←
      py_get error_details "message" (PyStr "Unknown API error from MarketAux");
    error_code ← py_get error_details "code" (PyStr "N/A");
    Ok (NewsError ("MarketAux News API Error (" +:+ py_str error_code +:+ "): "
                   +:+ py_str error_message))
  else Ok (NewsError "Unexpected response format received from MarketAux.").

(** Lines 77-126: the body of the [try] once the response is there. *)
Definition process_response (r : response) : result news_result :=
  raise_for_status r;;
  data ← json r;
  has_data ← py_in "data" data;
  data_is_list ←
    (if has_data : bool then
       v ← py_index data "data";
       Ok (match v with PyList _ => true | _ => false end)
     else Ok false);
  if data_is_list : bool then
    raw ← py_get data "data" (PyList []);
    match raw with
    | PyList raw_articles =>
        processed_articles ← mapM normalize_article raw_articles;
        Ok (NewsArticles processed_articles)
    | _ => Raise (TypeErrorNotContainer (type_name raw))
    end
  else api_error_result data.

(** Lines 128-137: the handler of [HTTPError]. *)
Definition http_error_handler (r : response) : news_result :=
  let attempt :=
    body ← json r;
    error_details ← py_get body "error" (PyDict ∅);
    py_get error_details "message"
      (PyStr ("Status " +:+ pretty (status_code r))) in
  let error_msg :=
    match attempt with
    | Ok v => py_str v
    | Raise _ =>
        "Status " +:+ pretty (status_code r) +:+ ", Body: "
        +:+ str_take 200 (text r)
    end in
  NewsError ("HTTP error connecting to MarketAux: " +:+ error_msg).

(** Lines 138-144: the handlers of the other exceptions. *)
Definition other_error_handler (e : exn) : news_result :=
  match e with
  | HTTPError _ | RequestException _ =>
      NewsError ("Network or API request error: " +:+ exc_str e)
  | _ => NewsError ("An unexpected error occurred: " +:+ exc_str e)
  end.

Definition fetch_marketaux_news
    (query : string) (page articles_per_page : Z) : traced news_result :=
  if String.eqb (MARKETAUX_API_KEY g) EmptyString then
    mret (NewsError "Server configuration error: Missing MarketAux API Key.")
  else
    let search_term := strip query in
    emit (EvHttpGet search_term articles_per_page page);;
    mret
      match requests_get (MARKETAUX_API_KEY g) search_term articles_per_page page with
      | ConnectionFailed detail => other_error_handler (RequestException detail)
      | Responded r =>
          match process_response r with
          | Ok res => res
          | Raise (HTTPError _) => http_error_handler r
          | Raise e => other_error_handler e
          end
      end.

(** *** analyze_content *)

(** Lines 156-170: the summarization stage.  Calling a [tokenizer] that
    is [None] raises inside the [try] as well. *)
Definition summarization_stage
    (summarize : string → option string) (text : string) : traced string :=
  match tokenizer g with
  | Some tokenize =>
      emit (EvTokenizer text);;
      match tokenize text with
      | Some decoded_input =>
          emit (EvSummarizer decoded_input);;
          mret (default "Error generating summary." (summarize decoded_input))
      | None => mret "Error generating summary."
      end
  | None => mret "Error generating summary."
  end.

(** Lines 172-177: the sentiment stage. *)
Definition sentiment_stage
    (classify : string → option string) (text : string) : traced string :=
  emit (EvSentiment (str_take 512 text));;
  mret (default "Error analyzing sentiment." (classify (str_take 512 text))).

Definition analyze_content (text : pyval) : traced (gmap string pyval) :=
  emit (EvAnalyze text);;
  match models_loaded g, summarizer g, sentiment_analyzer g with
  | true, Some summarize, Some classify =>
      if negb (py_truthy text) || negb (is_str text) then
        mret {[ "summary" := PyStr "No content provided for analysis.";
                "sentiment" := PyStr "N/A" ]}
      else
        summary ← summarization_stage summarize (py_str text);
        sentiment ← sentiment_stage classify (py_str text);
        mret (<["sentiment" := PyStr sentiment]>
                (<["summary" := PyStr summary]> ∅))
  | _, _, _ => mret {[ "error" := PyStr "ML models not available." ]}
  end.

(** *** The templates *)

Inductive template : Type :=
| HTML_INDEX_TEMPLATE
| HTML_RESULTS_TEMPLATE.

(** The three spans of the "Market Effect" line. *)
Inductive effect : Type :=
| effect_positive
| effect_negative
| effect_neutral.

(** What a template shows under one article. *)
Inductive analysis_view : Type :=
| ViewAnalysis (summary : option pyval) (market_effect : effect)
| ViewAnalysisError (error : pyval)
| ViewCouldNotAnalyze
| ViewNothing.

(** Lines 339-346 and 519-526: the [if]/[elif]/[else] on [sentiment],
    which is undefined ([None] here) when the key is missing. *)
Definition market_effect_of (sentiment : option pyval) : effect :=
  match sentiment with
  | Some (PyStr s) =>
      if String.eqb s "POSITIVE" then effect_positive
      else if String.eqb s "NEGATIVE" then effect_negative
      else effect_neutral
  | _ => effect_neutral
  end.

(** Lines 335-351 and 515-533: the analysis block of one article.  The
    index template has no [else] branch, the results template has one.
    An [analysis] that is not a dictionary has no [get]; the program
    never stores one. *)
Definition render_analysis (t : template) (article : gmap string pyval)
    : analysis_view :=
  let otherwise :=
    match t with
    | HTML_INDEX_TEMPLATE => ViewNothing
    | HTML_RESULTS_TEMPLATE => ViewCouldNotAnalyze
    end in
  match article !! "analysis" with
  | Some (PyDict analysis) =>
      let error := default PyNone (analysis !! "error") in
      if py_truthy (PyDict analysis) && negb (py_truthy error) then
        ViewAnalysis (analysis !! "summary")
                     (market_effect_of (analysis !! "sentiment"))
      else if py_truthy (PyDict analysis) && py_truthy error then
        ViewAnalysisError error
      else otherwise
  | _ => otherwise
  end.

(** *** The routes *)

(** [request.args] and [request.form] *)
Record request := {
  args : gmap string string;
  form : gmap string string;
}.

(** [render_template_string(template, **context)] *)
Record page := {
  page_template : template;
  page_context : gmap string pyval;
}.

Definition render_template_string
    (t : template) (context : gmap string pyval) : page :=
  {| page_template := t; page_context := context |}.

(** Lines 584-589: [request.args.get('page', 1, type=int)] gives the
    default when the conversion fails. *)
Definition home_current_page (req : request) : Z :=
  let current_page :=
    match args req !! "page" with
    | Some s => default 1 (py_int s)
    | None => 1
    end in
  if current_page <? 1 then 1 else current_page.

Definition home (req : request) : traced page :=
  let current_page := home_current_page req in
  '(error_msg, processed_initial_articles) ←
    (if negb (models_loaded g) then
       news_result ←
         fetch_marketaux_news "market news OR finance OR economy" current_page 5;
       match news_result with
       | NewsError e => mret (PyStr e, [])
       | NewsArticles articles =>
           mret (PyStr "ML Models failed to load. Analysis functionality may be limited.",
                 (λ article : gmap string pyval,
                    <["analysis" := PyDict {[ "error" := PyStr "ML models not loaded." ]}]>
                      article) <$> articles)
       end
     else
       news_result ←
         fetch_marketaux_news "market news OR finance OR economy" current_page 5;
       match news_result with
       | NewsError e => mret (PyStr e, [])
       | NewsArticles articles_to_process =>
           processed ←
             mapM (λ article : gmap string pyval,
                     let content_to_analyze :=
                       default (PyStr EmptyString) (article !! "content_for_analysis") in
                     if py_truthy content_to_analyze then
                       analysis ← analyze_content content_to_analyze;
                       mret (<["analysis" := PyDict analysis]> article)
                     else
                       mret (<["analysis" :=
                                 PyDict {[ "error" := PyStr "No content for analysis." ]}]>
                               article))
                  articles_to_process;
           mret (PyNone, processed)
       end);
  let next_page := current_page + 1 in
  mret (render_template_string HTML_INDEX_TEMPLATE
          {[ "initial_articles" := PyList (PyDict <$> processed_initial_articles);
             "initial_error" := error_msg;
             "marketaux_url" := PyStr MARKETAUX_WEBSITE_URL;
             "current_page" := PyInt current_page;
             "next_page" := PyInt next_page ]}).

(** Lines 654-659: [int(request.form.get('page', 1))] under
    [except ValueError]. *)
Definition analyze_current_page (req : request) : Z :=
  let converted :=
    match form req !! "page" with
    | Some s => py_int s
    | None => Some 1
    end in
  match converted with
  | Some current_page => if current_page <? 1 then 1 else current_page
  | None => 1
  end.

Definition analyze_news_route (req : request) : traced page :=
  if negb (models_loaded g) then
    mret (render_template_string HTML_INDEX_TEMPLATE
            {[ "search_error" := PyStr "ML Models are not available. Check server logs.";
               "marketaux_url" := PyStr MARKETAUX_WEBSITE_URL;
               "current_page" := PyInt 1;
               "next_page" := PyInt 2 ]})
  else
    let query_input := form req !! "topic" in
    let current_page := analyze_current_page req in
    match query_input with
    | None | Some EmptyString =>
        mret (render_template_string HTML_INDEX_TEMPLATE
                {[ "search_error" := PyStr "Please enter a news topic or ticker.";
                   "marketaux_url" := PyStr MARKETAUX_WEBSITE_URL;
                   "current_page" := PyInt 1;
                   "next_page" := PyInt 2 ]})
    | Some topic =>
        let articles_per_page := 10 in
        news_result ← fetch_marketaux_news topic current_page articles_per_page;
        match news_result with
        | NewsError e =>
            mret (render_template_string HTML_RESULTS_TEMPLATE
                    {[ "topic" := PyStr topic;
                       "error" := PyStr e;
                       "marketaux_url" := PyStr MARKETAUX_WEBSITE_URL;
                       "current_page" := PyInt current_page;
                       "next_page" := PyInt (current_page + 1) ]})
        | NewsArticles articles =>
            processed_articles ←
              mapM (λ article : gmap string pyval,
                      let content_to_analyze :=
                        default (PyStr EmptyString) (article !! "content_for_analysis") in
                      if py_truthy content_to_analyze then
                        analysis ← analyze_content content_to_analyze;
                        mret (<["analysis" := PyDict analysis]> article)
                      else
                        mret (<["analysis" :=
                                  PyDict {[ "error" :=
                                    PyStr "No description/snippet available from MarketAux for analysis." ]}]>
                                article))
                   articles;
            let next_page := current_page + 1 in
            mret (render_template_string HTML_RESULTS_TEMPLATE
                    {[ "topic" := PyStr topic;
                       "articles" := PyList (PyDict <$> processed_articles);
                       "marketaux_url" := PyStr MARKETAUX_WEBSITE_URL;
                       "current_page" := PyInt current_page;
                       "next_page" := PyInt next_page ]})
        end
    end.

End App.

(** *** What the templates show *)

(** The part of one article a template prints: its four fields (a
    missing one is undefined and prints as nothing) and the analysis
    block. *)
Record item_view := {
  item_title : option pyval;
  item_link : option pyval;
  item_source : option pyval;
  item_published_utc : option pyval;
  item_analysis : analysis_view;
}.

(** The news part of a page: the error paragraph, the list of articles
    followed by the "load more" control that carries [next_page], or
    the notice that nothing was found. *)
Inductive news_view : Type :=
| NewsViewError (error : pyval)
| NewsViewList (items : list item_view) (load_more : option pyval)
| NewsViewEmpty.

Record page_view := {
  view_current_page : option pyval;
  view_news : news_view;
  (** the "Search Error" paragraph, which only the index template has *)
  view_search_error : option pyval;
}.

(** The truth value of a template variable; a variable the context
    does not bind is undefined, which is false. *)
Definition ctx_truthy (v : option pyval) : bool :=
  match v with
  | Some v => py_truthy v
  | None => false
  end.

(** Lines 331-353 and 511-534: the body of the [for] loop.  The routes
    only ever pass dictionaries; what Jinja does with another value is
    not modelled ([None]). *)
Definition render_item (t : template) (article : pyval) : option item_view :=
  match article with
  | PyDict d =>
      Some {| item_title := d !! "title";
              item_link := d !! "link";
              item_source := d !! "source";
              item_published_utc := d !! "published_utc";
              item_analysis := render_analysis t d |}
  | _ => None
  end.

(** Lines 326-361 and 507-552: the [if]/[elif]/[else] on the error and
    on the list of articles.  Inside the [elif] the list is truthy, so
    the "load more" control is always printed there.  A truthy value
    that is not a list is not modelled ([None]). *)
Definition render_news (t : template) (ctx : gmap string pyval)
    : option news_view :=
  let '(error_name, articles_name) :=
    match t with
    | HTML_INDEX_TEMPLATE => ("initial_error", "initial_articles")
    | HTML_RESULTS_TEMPLATE => ("error", "articles")
    end in
  if ctx_truthy (ctx !! error_name) then
    NewsViewError <$> ctx !! error_name
  else if ctx_truthy (ctx !! articles_name) then
    match ctx !! articles_name with
    | Some (PyList articles) =>
        items ← mapM (render_item t) articles;
        Some (NewsViewList items (ctx !! "next_page"))
    | _ => None
    end
  else Some NewsViewEmpty.

(** Lines 374-377: the search error of the index template. *)
Definition render_search_error (t : template) (ctx : gmap string pyval)
    : option pyval :=
  match t with
  | HTML_INDEX_TEMPLATE =>
      if ctx_truthy (ctx !! "search_error") then ctx !! "search_error" else None
  | HTML_RESULTS_TEMPLATE => None
  end.

(** The page a route returns, as the browser gets it. *)
Definition render_page (p : page) : option page_view :=
  news ← render_news (page_template p) (page_context p);
  Some {| view_current_page := page_context p !! "current_page";
          view_news := news;
          view_search_error :=
            render_search_error (page_template p) (page_context p) |}.

(** ** Vocabulary of the specification *)

Section Vocabulary.
Context `{Env} (g : globals).

(** What the summarization stage produces when nothing raises: the
    tokenizer round trip followed by the summarizer. *)
Definition summarization_outcome
    (summarize : string → option string) (text : string) : option string :=
  tokenize ← tokenizer g; decoded ← tokenize text; summarize decoded.

(** The field the analyzable text is taken from: the first usable one
    among description and snippet, in this order, and the title (the
    empty string for a record without title) when neither is usable.
    A field is usable when Python finds it truthy. *)
Definition chosen_field (d : gmap string pyval) : pyval :=
  match List.filter py_truthy (omap (λ k, d !! k) ["description"; "snippet"]) with
  | v :: _ => v
  | [] => default (PyStr EmptyString) (d !! "title")
  end.

(** The coercion of the chosen field to a string: a string is kept, null
    becomes the empty string, any other value goes through [str]. *)
Definition coerced (v : pyval) : string :=
  match v with
  | PyStr s => s
  | PyNone => EmptyString
  | _ => py_str v
  end.

Definition analyzable_text (d : gmap string pyval) : string :=
  coerced (chosen_field d).

(** The display date of a record whose [published_at] is missing, falsy
    or a string. *)
Definition published_display (d : gmap string pyval) : pyval :=
  match d !! "published_at" with
  | Some (PyStr s) =>
      if String.eqb s EmptyString then PyStr "N/A"
      else match fromisoformat (str_replace_char "Z"%char "+00:00" s) with
           | Some dt => PyStr (strftime dt "%Y-%m-%d %H:%M")
           | None => PyStr s
           end
  | _ => PyStr "N/A"
  end.

(** The record's [published_at] is missing, falsy or a string. *)
Definition date_is_text (d : gmap string pyval) : Prop :=
  ∀ v, d !! "published_at" = Some v → py_truthy v = true → is_str v = true.

(** The canonical article of a record, a function of this record alone. *)
Definition normalized (d : gmap string pyval) : gmap string pyval :=
  {[ "title" := default (PyStr "No Title") (d !! "title");
     "link" := default (PyStr "#") (d !! "url");
     "source" := default (PyStr "Unknown Source") (d !! "source");
     "published_utc" := published_display d;
     "content_for_analysis" := PyStr (analyzable_text d) ]}.

(** The body of the two analysis loops (lines 615-622 and 690-698),
    which differ by the message for an article without text only. *)
Definition analyze_article (no_content : string) (article : gmap string pyval)
    : traced (gmap string pyval) :=
  let content_to_analyze :=
    default (PyStr EmptyString) (article !! "content_for_analysis") in
  if py_truthy content_to_analyze then
    analysis ← analyze_content g content_to_analyze;
    mret (<["analysis" := PyDict analysis]> article)
  else
    mret (<["analysis" := PyDict {[ "error" := PyStr no_content ]}]> article).

(** What the pipeline owes an article: [item] is the article after the
    loop and [t] the calls made for it.  Without text, the no-content
    failure and no call of [analyze_content]; with a text, the outcome
    of [analyze_content] on it and exactly one call. *)
Definition analysed_as (no_content : string)
    (article item : gmap string pyval) (t : list event) : Prop :=
  (article !! "content_for_analysis" = Some (PyStr EmptyString) →
     item = <["analysis" := PyDict {[ "error" := PyStr no_content ]}]> article
     ∧ analyze_calls t = [])
  ∧ (∀ s, article !! "content_for_analysis" = Some (PyStr s) →
       s ≠ EmptyString →
       item = <["analysis" := PyDict (value (analyze_content g (PyStr s)))]> article
       ∧ analyze_calls t = [PyStr s]).

End Vocabulary.

(** A raw record the loop of [fetch_marketaux_news] gets through: an
    object whose [published_at] is missing, falsy or a string. *)
Definition record_ok (v : pyval) : bool :=
  match v with
  | PyDict d =>
      match d !! "published_at" with
      | Some w => negb (py_truthy w) || is_str w
      | None => true
      end
  | _ => false
  end.

(** How the error messages of [fetch_marketaux_news] start. *)
Definition fetch_error_prefixes : list string :=
  [ "Server configuration error: Missing MarketAux API Key.";
    "HTTP error connecting to MarketAux: ";
    "Network or API request error: ";
    "An unexpected error occurred: ";
    "MarketAux News API Error (";
    "Unexpected response format received from MarketAux." ].

(** What a template prints for an article that is a dictionary. *)
Definition view_of_article (t : template) (d : gmap string pyval) : item_view :=
  {| item_title := d !! "title";
     item_link := d !! "link";
     item_source := d !! "source";
     item_published_utc := d !! "published_utc";
     item_analysis := render_analysis t d |}.

(** The keys of a canonical article. *)
Definition article_keys : gset string :=
  {[ "title"; "link"; "source"; "published_utc"; "content_for_analysis" ]}.

(** ** Test doubles

    A concrete environment and concrete globals, on which the theorems
    below are exercised. *)

Module Sample.

(** A calendar that knows one instant. *)
Definition sample_env (outcome : http_outcome) : Env := {|
  datetime := string;
  fromisoformat := λ s,
    if String.eqb s "2024-05-01T12:30:00+00:00" then Some "2024-05-01 12:30"
    else None;
  strftime := λ dt _, dt;
  float_str := λ _, "0.0";
  container_str := λ _, "[]";
  exc_str := λ e,
    match e with
    | HTTPError _ => "HTTPError"
    | RequestException d | ValueError d => d
    | AttributeError ty attr =>
        "'" +:+ ty +:+ "' object has no attribute '" +:+ attr +:+ "'"
    | TypeErrorNotContainer ty => "argument of type '" +:+ ty +:+ "' is not iterable"
    | TypeErrorIndex ty => ty +:+ " indices must be integers"
    end;
  py_int := λ s,
    if String.eqb s "1" then Some 1
    else if String.eqb s "3" then Some 3
    else if String.eqb s "-4" then Some (-4)
    else None;
  requests_get := λ _ _ _ _, outcome;
|}.

(** Models loaded: the summarizer keeps the first 20 characters, the
    classifier answers POSITIVE. *)
Definition loaded : globals := {|
  MARKETAUX_API_KEY := "token";
  models_loaded := true;
  tokenizer := Some (λ s, Some s);
  summarizer := Some (λ s, Some (str_take 20 s));
  sentiment_analyzer := Some (λ _, Some "POSITIVE");
|}.

(** Models loaded, both backends raising on every input. *)
Definition failing : globals := {|
  MARKETAUX_API_KEY := "token";
  models_loaded := true;
  tokenizer := Some (λ s, Some s);
  summarizer := Some (λ _, None);
  sentiment_analyzer := Some (λ _, None);
|}.

(** The state after a failed model load. *)
Definition degraded : globals := {|
  MARKETAUX_API_KEY := "token";
  models_loaded := false;
  tokenizer := None;
  summarizer := None;
  sentiment_analyzer := None;
|}.

(** [s] between double quotes, as in a JSON document. *)
Definition quoted (s : string) : string :=
  String (ascii_of_nat 34) s +:+ String (ascii_of_nat 34) EmptyString.

(** HTTP 429 with a structured error body. *)
Definition offline : Env := sample_env (ConnectionFailed "timed out").

Definition rate_limited : response := {|
  status_code := 429;
  text := "{" +:+ quoted "error" +:+ ":{" +:+ quoted "code" +:+ ":"
          +:+ quoted "rate_limit" +:+ "," +:+ quoted "message" +:+ ":"
          +:+ quoted "Too many requests" +:+ "}}";
  json := Ok (PyDict {[ "error" :=
            PyDict {[ "code" := PyStr "rate_limit";
                      "message" := PyStr "Too many requests" ]} ]});
|}.

(** HTTP 502 with a body that is not JSON. *)
Definition bad_gateway : response := {|
  status_code := 502;
  text := "<html>Bad Gateway</html>";
  json := Raise (ValueError "Expecting value: line 1 column 1 (char 0)");
|}.

(** Three records: a null description with a snippet and a date that
    parses; nothing but a date that does not parse; a title with an
    empty date. *)
Definition record_a : gmap string pyval :=
  {[ "title" := PyStr "Rates";
     "description" := PyNone;
     "snippet" := PyStr "Fed raises rates";
     "published_at" := PyStr "2024-05-01T12:30:00Z" ]}.

Definition record_b : gmap string pyval :=
  {[ "published_at" := PyStr "yesterday" ]}.

Definition record_c : gmap string pyval :=
  {[ "title" := PyStr "Markets";
     "published_at" := PyStr EmptyString ]}.

Definition feed_records : list (gmap string pyval) :=
  [record_a; record_b; record_c].

Definition feed_text : string :=
  "{" +:+ quoted "data" +:+ ":[{"
  +:+ quoted "title" +:+ ":" +:+ quoted "Rates" +:+ ","
  +:+ quoted "description" +:+ ":null,"
  +:+ quoted "snippet" +:+ ":" +:+ quoted "Fed raises rates" +:+ ","
  +:+ quoted "published_at" +:+ ":" +:+ quoted "2024-05-01T12:30:00Z" +:+ "},{"
  +:+ quoted "published_at" +:+ ":" +:+ quoted "yesterday" +:+ "},{"
  +:+ quoted "title" +:+ ":" +:+ quoted "Markets" +:+ ","
  +:+ quoted "published_at" +:+ ":" +:+ quoted EmptyString +:+ "}]}".

(** HTTP 200 with the three records. *)
Definition feed : response := {|
  status_code := 200;
  text := feed_text;
  json := Ok (PyDict {[ "data" := PyList (PyDict <$> feed_records) ]});
|}.

(** HTTP 200 with the third record alone. *)
Definition undated : response := {|
  status_code := 200;
  text := "{" +:+ quoted "data" +:+ ":[{"
          +:+ quoted "title" +:+ ":" +:+ quoted "Markets" +:+ ","
          +:+ quoted "published_at" +:+ ":" +:+ quoted EmptyString +:+ "}]}";
  json := Ok (PyDict {[ "data" := PyList [PyDict record_c] ]});
|}.

(** A record with an empty description, and one with an empty
    description and an empty snippet. *)
Definition record_d : gmap string pyval :=
  {[ "description" := PyStr EmptyString;
     "snippet" := PyStr "Fed raises rates";
     "title" := PyStr "Rates" ]}.

Definition record_e : gmap string pyval :=
  {[ "description" := PyStr EmptyString;
     "snippet" := PyStr EmptyString;
     "title" := PyStr "Rates" ]}.

(** A request for the first page, with a topic for the search form. *)
Definition first_page : request := {|
  args := ∅;
  form := {[ "topic" := "fed" ]};
|}.

(** A request for page 3. *)
Definition third_page : request := {|
  args := {[ "page" := "3" ]};
  form := {[ "topic" := "fed"; "page" := "3" ]};
|}.

(** An article whose analysis carries the sentinel label. *)
Definition unlabelled : gmap string pyval :=
  {[ "title" := PyStr "Markets";
     "analysis" := PyDict {[ "summary" := PyStr "No content provided for analysis.";
                             "sentiment" := PyStr "N/A" ]} ]}.

(** HTTP 200 with an error object in the body. *)
Definition refused : response := {|
  status_code := 200;
  text := "{" +:+ quoted "error" +:+ ":{" +:+ quoted "code" +:+ ":"
          +:+ quoted "invalid_api_token" +:+ "," +:+ quoted "message" +:+ ":"
          +:+ quoted "Invalid API token." +:+ "}}";
  json := Ok (PyDict {[ "error" :=
            PyDict {[ "code" := PyStr "invalid_api_token";
                      "message" := PyStr "Invalid API token." ]} ]});
|}.

(** HTTP 200 with an object that has neither data nor error. *)
Definition odd_body : response := {|
  status_code := 200;
  text := "{" +:+ quoted "meta" +:+ ":{}}";
  json := Ok (PyDict {[ "meta" := PyDict ∅ ]});
|}.

(** HTTP 200 with a good record followed by one whose date is a number. *)
Definition numeric_date : response := {|
  status_code := 200;
  text := "{" +:+ quoted "data" +:+ ":[{"
          +:+ quoted "published_at" +:+ ":" +:+ quoted "yesterday" +:+ "},{"
          +:+ quoted "published_at" +:+ ":1714566600}]}";
  json := Ok (PyDict {[ "data" :=
            PyList [PyDict record_b;
                    PyDict {[ "published_at" := PyInt 1714566600 ]}] ]});
|}.

(** A record with a null title. *)
Definition record_f : gmap string pyval :=
  {[ "title" := PyNone; "url" := PyStr "https://example.org/a" ]}.

(** A search for a topic of two spaces, and a search without topic. *)
Definition blank_search : request := {|
  args := ∅;
  form := {[ "topic" := "  " ]};
|}.

Definition empty_search : request := {|
  args := ∅;
  form := ∅;
|}.

(** [s * n] *)
Fixpoint str_repeat (n : nat) (s : string) : string :=
  match n with
  | O => EmptyString
  | S k => s +:+ str_repeat k s
  end.

(** A text of 600 characters that takes 1200 bytes, and one of 300
    characters that takes 600 bytes. *)
Definition long_text : string := str_repeat 600 "é".

Definition accented_text : string := str_repeat 300 "é".

(** A classifier that answers with the text it was given. *)
Definition echoing : globals := {|
  MARKETAUX_API_KEY := "token";
  models_loaded := true;
  tokenizer := Some (λ s, None);
  summarizer := Some (λ _, None);
  sentiment_analyzer := Some (λ s, Some s);
|}.

(** HTTP 500 with a body of 201 characters that is not JSON: 199 times
    "x" and two euro signs of three bytes each. *)
Definition long_failure : response := {|
  status_code := 500;
  text := str_repeat 199 "x" +:+ "€€";
  json := Raise (ValueError "Expecting value: line 1 column 1 (char 0)");
|}.

(** The no-break space U+00A0 and the ideographic space U+3000, in
    UTF-8. *)
Definition no_break_space : string :=
  String (ascii_of_nat 194) (String (ascii_of_nat 160) EmptyString).

Definition ideographic_space : string :=
  String (ascii_of_nat 227)
    (String (ascii_of_nat 128) (String (ascii_of_nat 128) EmptyString)).

(** A search for "fed" between a no-break space and an ideographic
    space, and a search for a topic made of a space, a no-break space
    and an ideographic space. *)
Definition padded_topic : string :=
  no_break_space +:+ "fed" +:+ ideographic_space.

Definition wide_blank_topic : string :=
  " " +:+ no_break_space +:+ ideographic_space.

Definition padded_search : request := {|
  args := ∅;
  form := {[ "topic" := padded_topic ]};
|}.

Definition wide_blank_search : request := {|
  args := ∅;
  form := {[ "topic" := wide_blank_topic ]};
|}.

End Sample.

(** ** Tactics *)

(** The side condition on dates, on a concrete record. *)
Ltac date_is_text_by_lookup :=
  let v := fresh "v" in
  let Hv := fresh "Hv" in
  intros v Hv; vm_compute in Hv;
  first [discriminate Hv | injection Hv as <-; intros _; reflexivity].

(** The lookup of a key in a dictionary display. *)
Ltac map_lookup :=
  rewrite ?lookup_insert_ne by done;
  first [apply lookup_insert_eq | apply lookup_singleton_eq].

(** ** Strings and traces: lemmas *)

Lemma contains_unfold (needle hay : string) :
  contains needle hay =
  String.prefix needle hay ||
  match hay with EmptyString => false | String _ t => contains needle t end.
Proof. destruct hay; reflexivity. Qed.

Lemma prefix_app (a b : string) : String.prefix a (a +:+ b) = true.
Proof.
  induction a as [|c a IH]; simpl.
  - by destruct b.
  - destruct (ascii_dec c c); [exact IH | congruence].
Qed.

Lemma contains_here (needle rest : string) :
  contains needle (needle +:+ rest) = true.
Proof. rewrite contains_unfold, prefix_app. reflexivity. Qed.

Lemma contains_refl (s : string) : contains s s = true.
Proof.
  rewrite contains_unfold.
  assert (String.prefix s s = true) as ->; [|done].
  induction s as [|c s IH]; simpl; [done|].
  destruct (ascii_dec c c); [exact IH | congruence].
Qed.

Lemma contains_app_r (needle a b : string) :
  contains needle b = true → contains needle (a +:+ b) = true.
Proof.
  intros Hb. induction a as [|c a IH]; simpl; [exact Hb|].
  rewrite IH. apply orb_true_r.
Qed.

Lemma str_take_length (n : nat) (s : string) :
  (str_len (str_take n s) ≤ n)%nat.
Proof.
  revert n. induction s as [|c s IH]; intros n; cbn; [lia|].
  destruct (is_continuation c) eqn:E; cbn; rewrite ?E; [apply IH|].
  destruct n as [|n]; cbn; rewrite ?E; [lia|]. specialize (IH n). lia.
Qed.

Lemma str_take_prefix (n : nat) (s : string) :
  String.prefix (str_take n s) s = true.
Proof.
  revert n. induction s as [|c s IH]; intros n; cbn; [done|].
  destruct (is_continuation c).
  - cbn. destruct (ascii_dec c c); [apply IH | congruence].
  - destruct n as [|n]; [done|]. cbn.
    destruct (ascii_dec c c); [apply IH | congruence].
Qed.

Lemma value_bind {A B} (m : traced A) (f : A → traced B) :
  value (m ≫= f) = value (f (value m)).
Proof. reflexivity. Qed.

Lemma trace_bind {A B} (m : traced A) (f : A → traced B) :
  trace (m ≫= f) = trace m ++ trace (f (value m)).
Proof. reflexivity. Qed.

Lemma py_truthy_nonempty (s : string) :
  s ≠ EmptyString → py_truthy (PyStr s) = true.
Proof. by destruct s. Qed.

(** ** analyze_content *)

Section AnalyzeContent.
Context `{Env} (g : globals).

Lemma summarization_stage_value summarize s :
  value (summarization_stage g summarize s) =
  default "Error generating summary." (summarization_outcome g summarize s).
Proof.
  unfold summarization_stage, summarization_outcome.
  destruct (tokenizer g) as [tok|]; simpl; [|done].
  by destruct (tok s).
Qed.

(** With the models loaded and a non-empty string, the outcome is the
    dictionary of the two slots and the trace ends with the call of the
    classifier. *)
Lemma analyze_content_loaded s summarize classify :
  models_loaded g = true →
  summarizer g = Some summarize →
  sentiment_analyzer g = Some classify →
  s ≠ EmptyString →
  value (analyze_content g (PyStr s)) =
    <["sentiment" :=
        PyStr (default "Error analyzing sentiment." (classify (str_take 512 s)))]>
      (<["summary" :=
           PyStr (default "Error generating summary."
                    (summarization_outcome g summarize s))]> ∅)
  ∧ trace (analyze_content g (PyStr s)) =
      EvAnalyze (PyStr s) :: trace (summarization_stage g summarize s)
      ++ [EvSentiment (str_take 512 s)].
Proof.
  intros Hm Hs Hc Hne. unfold analyze_content.
  rewrite Hm, Hs, Hc, py_truthy_nonempty by done. cbn [is_str negb orb].
  split.
  - rewrite !value_bind. cbn [py_str].
    by rewrite summarization_stage_value.
  - rewrite !trace_bind. cbn [py_str emit trace].
    unfold sentiment_stage. rewrite !trace_bind. cbn [emit trace mret traced_ret].
    by rewrite !app_nil_r.
Qed.

(** C4: within one call of [analyze_content] on a non-empty string with
    the models loaded, each slot of the outcome carries what its own
    stage produced: the summary slot is the stage's text, or
    "Error generating summary." when the stage raised; the sentiment
    slot is the label the classifier gave on the first 512 characters of
    the input, or "Error analyzing sentiment." when it raised.  The
    classifier is called on those 512 characters whatever the
    summarization did, and the outcome has no error entry. *)
Theorem analyze_content_stages_fail_independently s summarize classify :
  models_loaded g = true →
  summarizer g = Some summarize →
  sentiment_analyzer g = Some classify →
  s ≠ EmptyString →
  let r := analyze_content g (PyStr s) in
  let summary := summarization_outcome g summarize s in
  let sentiment := classify (str_take 512 s) in
  value r !! "summary" =
    Some (PyStr (default "Error generating summary." summary))
  ∧ value r !! "sentiment" =
      Some (PyStr (default "Error analyzing sentiment." sentiment))
  ∧ (summary = None →
       value r !! "summary" = Some (PyStr "Error generating summary.")
       ∧ EvSentiment (str_take 512 s) ∈ trace r
       ∧ ∀ label, sentiment = Some label →
           value r !! "sentiment" = Some (PyStr label))
  ∧ (sentiment = None →
       value r !! "sentiment" = Some (PyStr "Error analyzing sentiment.")
       ∧ ∀ t, summary = Some t → value r !! "summary" = Some (PyStr t))
  ∧ EvSentiment (str_take 512 s) ∈ trace r
  ∧ value r !! "error" = None.
Proof.
  intros Hm Hs Hc Hne r summary sentiment.
  destruct (analyze_content_loaded s summarize classify Hm Hs Hc Hne)
    as [Hv Ht].
  fold r in Hv, Ht. fold summary sentiment in Hv.
  assert (Hsum : value r !! "summary" =
                 Some (PyStr (default "Error generating summary." summary))).
  { rewrite Hv. rewrite lookup_insert_ne by done. apply lookup_insert_eq. }
  assert (Hsen : value r !! "sentiment" =
                 Some (PyStr (default "Error analyzing sentiment." sentiment))).
  { rewrite Hv. apply lookup_insert_eq. }
  assert (Hev : EvSentiment (str_take 512 s) ∈ trace r).
  { rewrite Ht. apply elem_of_cons. right. apply elem_of_app. right.
    apply list_elem_of_singleton. reflexivity. }
  split; [exact Hsum|]. split; [exact Hsen|].
  split; [|split; [|split; [exact Hev|]]].
  - intros E. split; [by rewrite Hsum, E|]. split; [exact Hev|].
    intros label El. by rewrite Hsen, El.
  - intros E. split; [by rewrite Hsen, E|].
    intros t Et. by rewrite Hsum, Et.
  - rewrite Hv. by rewrite !lookup_insert_ne, lookup_empty by done.
Qed.

(** C9: with the models loaded and a non-empty string,
    [analyze_content] returns a dictionary with a summary entry and a
    sentiment entry and without an error entry; when both stages raise
    the two entries are the two stand-in strings. *)
Theorem analyze_content_never_reports_stage_failure s summarize classify :
  models_loaded g = true →
  summarizer g = Some summarize →
  sentiment_analyzer g = Some classify →
  s ≠ EmptyString →
  let analysis := value (analyze_content g (PyStr s)) in
  is_Some (analysis !! "summary")
  ∧ is_Some (analysis !! "sentiment")
  ∧ analysis !! "error" = None
  ∧ (summarization_outcome g summarize s = None →
     classify (str_take 512 s) = None →
     analysis = {[ "summary" := PyStr "Error generating summary.";
                   "sentiment" := PyStr "Error analyzing sentiment." ]}).
Proof.
  intros Hm Hs Hc Hne analysis.
  destruct (analyze_content_loaded s summarize classify Hm Hs Hc Hne)
    as [Hv _].
  fold analysis in Hv. rewrite Hv.
  split; [|split; [|split]].
  - rewrite lookup_insert_ne by done. rewrite lookup_insert_eq. by eexists.
  - rewrite lookup_insert_eq. by eexists.
  - by rewrite !lookup_insert_ne, lookup_empty by done.
  - intros E1 E2. rewrite E1, E2. cbn [default].
    apply insert_insert_ne. done.
Qed.

End AnalyzeContent.

Lemma analyze_content_stages_fail_independently_witness :
  let g := Sample.failing in
  let r := @analyze_content Sample.offline g (PyStr "Fed raises rates") in
  let long := @analyze_content Sample.offline Sample.echoing (PyStr Sample.long_text) in
  value r !! "summary" = Some (PyStr "Error generating summary.")
  ∧ value r !! "sentiment" = Some (PyStr "Error analyzing sentiment.")
  ∧ EvSentiment "Fed raises rates" ∈ trace r
  ∧ value r !! "error" = None
  ∧ value long !! "summary" = Some (PyStr "Error generating summary.")
  ∧ value long !! "sentiment" = Some (PyStr (Sample.str_repeat 512 "é")).
Proof.
  pose proof (@analyze_content_stages_fail_independently
                Sample.offline Sample.failing "Fed raises rates"
                (λ _, None) (λ _, None)
                eq_refl eq_refl eq_refl ltac:(discriminate)) as P.
  pose proof (@analyze_content_stages_fail_independently
                Sample.offline Sample.echoing Sample.long_text
                (λ _, None) (λ s, Some s)
                eq_refl eq_refl eq_refl ltac:(discriminate)) as Q.
  cbv zeta in P, Q. destruct P as (P1 & P2 & _ & _ & P5 & P6).
  destruct Q as (Q1 & Q2 & _).
  cbv zeta. split; [exact P1|]. split; [exact P2|]. split; [exact P5|].
  split; [exact P6|]. split.
  - rewrite Q1. vm_compute. reflexivity.
  - rewrite Q2. vm_compute. reflexivity.
Defined.

Lemma analyze_content_never_reports_stage_failure_witness :
  let analysis :=
    value (@analyze_content Sample.offline Sample.failing (PyStr "Fed raises rates")) in
  is_Some (analysis !! "summary")
  ∧ is_Some (analysis !! "sentiment")
  ∧ analysis !! "error" = None.
Proof.
  pose proof (@analyze_content_never_reports_stage_failure
                Sample.offline Sample.failing "Fed raises rates"
                (λ _, None) (λ _, None)
                eq_refl eq_refl eq_refl ltac:(discriminate)) as P.
  cbv zeta in P. destruct P as (P1 & P2 & P3 & _).
  exact (conj P1 (conj P2 P3)).
Defined.

(** ** fetch_marketaux_news *)

Lemma mapM_result_fmap {A B} (f : A → result B) (h : A → B) (l : list A) :
  Forall (λ x, f x = Ok (h x)) l → mapM f l = Ok (h <$> l).
Proof.
  induction 1 as [|x l Hx _ IH]; [reflexivity|].
  cbn. rewrite Hx. cbn. rewrite IH. reflexivity.
Qed.

Lemma mapM_result_Forall2 {A B} (f : A → result B) (l : list A) (k : list B) :
  mapM f l = Ok k → Forall2 (λ x y, f x = Ok y) l k.
Proof.
  revert k. induction l as [|x l IH]; intros k; cbn.
  - intros [= <-]. constructor.
  - destruct (f x) as [y|e] eqn:Hx; cbn; [|discriminate].
    destruct (mapM f l) as [k'|e] eqn:Hl; cbn; [|discriminate].
    intros [= <-]. constructor; [exact Hx | by apply IH].
Qed.

Section Fetch.
Context `{Env} (g : globals).

Lemma coerce_content (c : pyval) :
  (if is_str c then c
   else match c with
        | PyNone => PyStr EmptyString
        | _ => PyStr (py_str c)
        end) = PyStr (coerced c).
Proof. by destruct c. Qed.

Lemma chosen_field_unfold (d : gmap string pyval) :
  chosen_field d =
    if py_truthy (default PyNone (d !! "description"))
    then default PyNone (d !! "description")
    else if py_truthy (default PyNone (d !! "snippet"))
         then default PyNone (d !! "snippet")
         else default (PyStr EmptyString) (d !! "title").
Proof.
  unfold chosen_field. cbn.
  destruct (d !! "description") as [v1|]; destruct (d !! "snippet") as [v2|];
    cbn; try destruct (py_truthy v1); cbn; try destruct (py_truthy v2);
    reflexivity.
Qed.

Lemma content_for_analysis_dict (d : gmap string pyval) :
  content_for_analysis (PyDict d) = Ok (PyStr (analyzable_text d)).
Proof.
  unfold content_for_analysis, analyzable_text, chosen_field.
  cbn.
  destruct (d !! "description") as [v1|]; destruct (d !! "snippet") as [v2|];
    cbn; try destruct (py_truthy v1); cbn; try destruct (py_truthy v2); cbn;
    by rewrite coerce_content.
Qed.

Lemma published_utc_dict (d : gmap string pyval) :
  date_is_text d → published_utc (PyDict d) = Ok (published_display d).
Proof.
  intros Hd. unfold published_utc, published_display.
  cbn [py_get mbind result_bind].
  destruct (d !! "published_at") as [v|] eqn:E; [|done].
  change (default PyNone (Some v)) with v.
  destruct (py_truthy v) eqn:Ht.
  - specialize (Hd v E Ht). destruct v; try discriminate.
    cbn [py_replace_Z]. cbn in Ht. apply negb_true_iff in Ht. rewrite Ht.
    cbn [mbind result_bind]. by destruct (fromisoformat _).
  - destruct v; try done. cbn in Ht. apply negb_false_iff in Ht. by rewrite Ht.
Qed.

Lemma normalize_article_dict (d : gmap string pyval) :
  date_is_text d → normalize_article (PyDict d) = Ok (normalized d).
Proof.
  intros Hd. unfold normalize_article.
  rewrite content_for_analysis_dict, published_utc_dict by done.
  reflexivity.
Qed.

Lemma normalize_article_inv (v : pyval) (a : gmap string pyval) :
  normalize_article v = Ok a →
  ∃ d, v = PyDict d ∧ date_is_text d ∧ a = normalized d.
Proof.
  intros Hn. destruct v as [| | | | |l|d]; try discriminate.
  exists d. split; [done|].
  assert (Hd : date_is_text d).
  { intros w Hw Ht. unfold normalize_article in Hn.
    rewrite content_for_analysis_dict in Hn.
    unfold published_utc in Hn. cbn [py_get mbind result_bind] in Hn.
    rewrite Hw in Hn. change (default PyNone (Some w)) with w in Hn.
    rewrite Ht in Hn. by destruct w. }
  split; [done|]. rewrite normalize_article_dict in Hn by done. congruence.
Qed.

Lemma mapM_normalize_dicts (recs : list (gmap string pyval)) :
  Forall date_is_text recs →
  mapM normalize_article (PyDict <$> recs) = Ok (normalized <$> recs).
Proof.
  intros Hrecs.
  rewrite (mapM_result_fmap normalize_article
             (λ v, match v with PyDict d => normalized d | _ => ∅ end)).
  - by rewrite <- list_fmap_compose.
  - apply Forall_fmap. eapply Forall_impl; [exact Hrecs|].
    intros d Hd. by apply normalize_article_dict.
Qed.

Lemma mapM_normalize_inv (raws : list pyval) (arts : list (gmap string pyval)) :
  mapM normalize_article raws = Ok arts →
  ∃ recs, raws = PyDict <$> recs ∧ Forall date_is_text recs
          ∧ arts = normalized <$> recs.
Proof.
  intros Hm. apply mapM_result_Forall2 in Hm.
  induction Hm as [|v a raws arts Hv _ (recs & -> & Hrecs & ->)].
  - by exists [].
  - apply normalize_article_inv in Hv as (d & -> & Hd & ->).
    exists (d :: recs). by repeat constructor.
Qed.

Lemma process_response_data r body raws :
  raise_for_status r = Ok tt →
  json r = Ok (PyDict body) →
  body !! "data" = Some (PyList raws) →
  process_response r =
    (processed ← mapM normalize_article raws; Ok (NewsArticles processed)).
Proof.
  intros Hs Hj Hd. unfold process_response. rewrite Hs, Hj.
  cbn [mbind result_bind py_in py_index py_get]. rewrite Hd.
  rewrite (bool_decide_eq_true_2 (is_Some (Some (PyList raws)))) by eauto.
  reflexivity.
Qed.

Lemma api_error_result_inv data res :
  api_error_result data = Ok res → ∃ msg, res = NewsError msg.
Proof.
  unfold api_error_result.
  destruct (py_in "error" data) as [[]|]; cbn [mbind result_bind];
    [|intros [= <-]; by eexists|discriminate].
  destruct (py_index data "error") as [v|]; cbn [mbind result_bind];
    [|discriminate].
  destruct v; cbn [mbind result_bind py_get];
    try (intros [= <-]; by eexists).
Qed.

Lemma process_response_articles_inv r arts :
  process_response r = Ok (NewsArticles arts) →
  ∃ raws, mapM normalize_article raws = Ok arts.
Proof.
  unfold process_response.
  destruct (raise_for_status r); [|discriminate].
  destruct (json r) as [data|]; [|discriminate].
  cbn [mbind result_bind].
  destruct (py_in "data" data) as [[]|] eqn:Hin; cbn [mbind result_bind];
    [| |discriminate].
  - destruct (py_index data "data") as [v|] eqn:Hv; cbn [mbind result_bind];
      [|discriminate].
    assert (Hother : api_error_result data = Ok (NewsArticles arts) →
                     ∃ raws, mapM normalize_article raws = Ok arts).
    { intros (msg & [=])%api_error_result_inv. }
    destruct v; try exact Hother.
    destruct (py_get data "data" (PyList [])) as [raw|];
      cbn [mbind result_bind]; [|discriminate].
    destruct raw; try discriminate.
    destruct (mapM normalize_article l0) as [k|] eqn:Hm;
      cbn [mbind result_bind]; [|discriminate].
    intros [= <-]. by eexists.
  - intros (msg & [=])%api_error_result_inv.
Qed.

Lemma fetch_articles_inv query page n arts :
  value (fetch_marketaux_news g query page n) = NewsArticles arts →
  ∃ recs, Forall date_is_text recs ∧ arts = normalized <$> recs.
Proof.
  unfold fetch_marketaux_news.
  destruct (String.eqb _ _); [discriminate|].
  rewrite value_bind. cbn [value mret traced_ret].
  destruct (requests_get _ _ _ _) as [detail|r]; [discriminate|].
  destruct (process_response r) as [res|e] eqn:Hp.
  - intros ->. apply process_response_articles_inv in Hp as (raws & Hm).
    apply mapM_normalize_inv in Hm as (recs & _ & Hrecs & ->). eauto.
  - by destruct e.
Qed.

Lemma fetch_articles query page n r body recs :
  MARKETAUX_API_KEY g ≠ EmptyString →
  requests_get (MARKETAUX_API_KEY g) (strip query) n page = Responded r →
  raise_for_status r = Ok tt →
  json r = Ok (PyDict body) →
  body !! "data" = Some (PyList (PyDict <$> recs)) →
  Forall date_is_text recs →
  fetch_marketaux_news g query page n =
    Traced (NewsArticles (normalized <$> recs)) [EvHttpGet (strip query) n page].
Proof.
  intros Hkey Hget Hs Hj Hd Hrecs. unfold fetch_marketaux_news.
  apply String.eqb_neq in Hkey. rewrite Hkey, Hget.
  rewrite (process_response_data r body _ Hs Hj Hd).
  rewrite mapM_normalize_dicts by done. reflexivity.
Qed.

Lemma normalized_content (d : gmap string pyval) :
  normalized d !! "content_for_analysis" = Some (PyStr (analyzable_text d)).
Proof.
  unfold normalized. rewrite !lookup_insert_ne by done.
  apply lookup_insert_eq.
Qed.

Lemma normalized_published_utc (d : gmap string pyval) :
  normalized d !! "published_utc" = Some (published_display d).
Proof.
  unfold normalized. rewrite !lookup_insert_ne by done.
  apply lookup_insert_eq.
Qed.

(** C5: the analyzable text of a record is the first usable field among
    description and snippet, else the title; it goes through [str] when
    it is a number or a boolean, and it is a string in every article
    that is constructed.  With a null description and the snippet
    "Fed raises rates" it is "Fed raises rates". *)
Theorem analyzable_text_is_chosen_and_coerced (d : gmap string pyval) :
  content_for_analysis (PyDict d) = Ok (PyStr (coerced (chosen_field d)))
  ∧ (∀ a, normalize_article (PyDict d) = Ok a →
       a !! "content_for_analysis" = Some (PyStr (coerced (chosen_field d))))
  ∧ (∀ z, chosen_field d = PyInt z → coerced (chosen_field d) = pretty z)
  ∧ (∀ b, chosen_field d = PyBool b →
       coerced (chosen_field d) = if b then "True" else "False")
  ∧ (∀ f, chosen_field d = PyFloat f → coerced (chosen_field d) = float_str f)
  ∧ (d !! "description" = Some PyNone →
     d !! "snippet" = Some (PyStr "Fed raises rates") →
     content_for_analysis (PyDict d) = Ok (PyStr "Fed raises rates"))
  ∧ (∀ query page n arts,
       value (fetch_marketaux_news g query page n) = NewsArticles arts →
       Forall (λ a, ∃ s, a !! "content_for_analysis" = Some (PyStr s)) arts).
Proof.
  split; [apply content_for_analysis_dict|].
  split.
  { intros a (d' & [= <-] & _ & ->)%normalize_article_inv.
    apply normalized_content. }
  split; [by intros z ->|]. split; [by intros [] ->|]. split; [by intros f ->|].
  split.
  { intros Hd Hs. rewrite content_for_analysis_dict.
    unfold analyzable_text, chosen_field. cbn. by rewrite Hd, Hs. }
  intros query page n arts (recs & _ & ->)%fetch_articles_inv.
  apply Forall_fmap, Forall_forall. intros r _. cbn.
  rewrite normalized_content. by eexists.
Qed.

(** C10: the choice goes by truthiness.  A record whose description is
    present but falsy (the empty string, 0, false) has the analyzable
    text of the same record without description; when its snippet is
    falsy as well, that is the text of the title. *)
Theorem falsy_description_falls_through (d : gmap string pyval) (v : pyval) :
  d !! "description" = Some v →
  py_truthy v = false →
  content_for_analysis (PyDict d) =
    content_for_analysis (PyDict (delete "description" d))
  ∧ (∀ w, d !! "snippet" = Some w → py_truthy w = true →
       content_for_analysis (PyDict d) = Ok (PyStr (coerced w)))
  ∧ (∀ w, d !! "snippet" = Some w → py_truthy w = false →
       content_for_analysis (PyDict d) =
         content_for_analysis (PyDict (delete "snippet" (delete "description" d)))
       ∧ content_for_analysis (PyDict d) =
           Ok (PyStr (coerced (default (PyStr EmptyString) (d !! "title")))))
  ∧ py_truthy (PyStr EmptyString) = false
  ∧ py_truthy (PyInt 0) = false
  ∧ py_truthy (PyBool false) = false.
Proof.
  intros Hd Hv. rewrite !content_for_analysis_dict.
  unfold analyzable_text. rewrite !chosen_field_unfold.
  rewrite (lookup_delete_eq d "description").
  rewrite (lookup_delete_eq (delete "description" d) "snippet").
  rewrite !(lookup_delete_ne (delete "description" d) "snippet") by done.
  rewrite !(lookup_delete_ne d "description") by done.
  rewrite !(lookup_delete_eq d "description").
  rewrite Hd. simpl. rewrite Hv.
  split; [done|]. split; [|split; [|done]].
  - intros w -> Hw. simpl. by rewrite Hw.
  - intros w -> Hw. simpl. by rewrite Hw.
Qed.

Lemma raise_for_status_ok r :
  status_code r < 400 ∨ 600 ≤ status_code r → raise_for_status r = Ok tt.
Proof.
  intros Hs. unfold raise_for_status.
  destruct (400 <=? status_code r) eqn:E1; [|done].
  destruct (status_code r <? 600) eqn:E2; [|done]. lia.
Qed.

Lemma process_response_http_error r :
  400 ≤ status_code r < 600 →
  process_response r = Raise (HTTPError (status_code r)).
Proof.
  intros [H1 H2]. unfold process_response, raise_for_status.
  apply Z.leb_le in H1. apply Z.ltb_lt in H2. by rewrite H1, H2.
Qed.

Lemma published_display_rules (d : gmap string pyval) :
  (d !! "published_at" = None → published_display d = PyStr "N/A")
  ∧ (∀ v, d !! "published_at" = Some v → py_truthy v = false →
       published_display d = PyStr "N/A")
  ∧ (∀ s, d !! "published_at" = Some (PyStr s) → s ≠ EmptyString →
       fromisoformat (str_replace_char "Z"%char "+00:00" s) = None →
       published_display d = PyStr s)
  ∧ (∀ s dt, d !! "published_at" = Some (PyStr s) → s ≠ EmptyString →
       fromisoformat (str_replace_char "Z"%char "+00:00" s) = Some dt →
       published_display d = PyStr (strftime dt "%Y-%m-%d %H:%M")).
Proof.
  unfold published_display. split; [by intros ->|]. split; [|split].
  - intros v -> Hv. destruct v; try done.
    cbn in Hv. apply negb_false_iff in Hv. by rewrite Hv.
  - intros s -> Hs%String.eqb_neq Hp. by rewrite Hs, Hp.
  - intros s dt -> Hs%String.eqb_neq Hp. by rewrite Hs, Hp.
Qed.

(** C6, as the code has it: in a batch whose records carry a
    [published_at] that is missing, falsy or a string, every record is
    normalized on its own, and the date shown is "N/A" when
    [published_at] is missing or falsy (null, the empty string), the raw
    string when it is a non-empty string that does not parse as an ISO
    date once 'Z' is replaced by '+00:00', and the '%Y-%m-%d %H:%M'
    rendering when it parses. *)
Theorem published_display_per_record query page n r body recs :
  MARKETAUX_API_KEY g ≠ EmptyString →
  requests_get (MARKETAUX_API_KEY g) (strip query) n page = Responded r →
  status_code r < 400 ∨ 600 ≤ status_code r →
  json r = Ok (PyDict body) →
  body !! "data" = Some (PyList (PyDict <$> recs)) →
  Forall date_is_text recs →
  value (fetch_marketaux_news g query page n) = NewsArticles (normalized <$> recs)
  ∧ Forall (λ d,
      let shown := normalized d !! "published_utc" in
      (d !! "published_at" = None → shown = Some (PyStr "N/A"))
      ∧ (∀ v, d !! "published_at" = Some v → py_truthy v = false →
           shown = Some (PyStr "N/A"))
      ∧ (∀ s, d !! "published_at" = Some (PyStr s) → s ≠ EmptyString →
           fromisoformat (str_replace_char "Z"%char "+00:00" s) = None →
           shown = Some (PyStr s))
      ∧ (∀ s dt, d !! "published_at" = Some (PyStr s) → s ≠ EmptyString →
           fromisoformat (str_replace_char "Z"%char "+00:00" s) = Some dt →
           shown = Some (PyStr (strftime dt "%Y-%m-%d %H:%M")))) recs.
Proof.
  intros Hkey Hget Hs Hj Hd Hrecs. split.
  - by rewrite (fetch_articles query page n r body recs)
      by eauto using raise_for_status_ok.
  - apply Forall_forall. intros d _. cbv zeta.
    rewrite normalized_published_utc.
    destruct (published_display_rules d) as (R1 & R2 & R3 & R4).
    split; [|split; [|split]].
    + intros E. by rewrite R1.
    + intros v E Hv. by rewrite (R2 v).
    + intros s E Hne Hp. by rewrite (R3 s).
    + intros s dt E Hne Hp. by rewrite (R4 s dt).
Qed.

(** C1, as the code has it: for a 4xx or 5xx response, when the body
    decodes to an object whose "error" is an object with a string
    "message", the error result is "HTTP error connecting to
    MarketAux: " followed by that message, hence contains it (the
    machine code is not part of it); when the body does not decode, the
    error result contains the status and the first 200 characters of
    the body, and no more of it. *)
Theorem http_error_reports_message query page n r :
  MARKETAUX_API_KEY g ≠ EmptyString →
  requests_get (MARKETAUX_API_KEY g) (strip query) n page = Responded r →
  400 ≤ status_code r < 600 →
  let res := value (fetch_marketaux_news g query page n) in
  (∀ body details m,
     json r = Ok (PyDict body) →
     body !! "error" = Some (PyDict details) →
     details !! "message" = Some (PyStr m) →
     res = NewsError ("HTTP error connecting to MarketAux: " +:+ m)
     ∧ contains m ("HTTP error connecting to MarketAux: " +:+ m) = true)
  ∧ (∀ e, json r = Raise e →
     let shown := str_take 200 (text r) in
     let msg := "HTTP error connecting to MarketAux: " +:+
                ("Status " +:+ pretty (status_code r) +:+ ", Body: " +:+ shown) in
     res = NewsError msg
     ∧ contains (pretty (status_code r)) msg = true
     ∧ contains shown msg = true
     ∧ (str_len shown ≤ 200)%nat
     ∧ String.prefix shown (text r) = true).
Proof.
  intros Hkey Hget Hs res.
  assert (Hres : res = http_error_handler r).
  { unfold res, fetch_marketaux_news.
    apply String.eqb_neq in Hkey. rewrite Hkey, Hget.
    by rewrite process_response_http_error. }
  rewrite Hres. unfold http_error_handler. split.
  - intros body details m Hj Hb Hm. rewrite Hj.
    cbn [mbind result_bind py_get]. rewrite Hb.
    change (default (PyDict ∅) (Some (PyDict details))) with (PyDict details).
    cbn [mbind result_bind py_get]. rewrite Hm.
    change (default ?x (Some (PyStr m))) with (PyStr m). cbn [py_str].
    split; [done|].
    apply contains_app_r, contains_refl.
  - intros e Hj. rewrite Hj. cbn [mbind result_bind].
    split; [done|]. split; [|split; [|split]].
    + apply contains_app_r, contains_app_r, contains_here.
    + do 4 apply contains_app_r. apply contains_refl.
    + apply str_take_length.
    + apply str_take_prefix.
Qed.

End Fetch.

Lemma feed_records_dates : Forall date_is_text Sample.feed_records.
Proof. repeat constructor; date_is_text_by_lookup. Qed.

Lemma falsy_description_falls_through_witness :
  @content_for_analysis Sample.offline (PyDict Sample.record_d) =
    Ok (PyStr "Fed raises rates")
  ∧ @content_for_analysis Sample.offline (PyDict Sample.record_e) =
      Ok (PyStr "Rates").
Proof.
  split.
  - pose proof (@falsy_description_falls_through Sample.offline
                  Sample.record_d (PyStr EmptyString) eq_refl eq_refl)
      as (_ & P & _).
    exact (P (PyStr "Fed raises rates") eq_refl eq_refl).
  - pose proof (@falsy_description_falls_through Sample.offline
                  Sample.record_e (PyStr EmptyString) eq_refl eq_refl)
      as (_ & _ & P & _).
    exact (proj2 (P (PyStr EmptyString) eq_refl eq_refl)).
Defined.

(** C6, counterexample: a record whose [published_at] is present, is the
    empty string and does not parse is shown with "N/A", not with its
    raw string. *)
Lemma empty_published_at_shows_NA :
  let E := Sample.sample_env (Responded Sample.undated) in
  Sample.record_c !! "published_at" = Some (PyStr EmptyString)
  ∧ @fromisoformat E (str_replace_char "Z"%char "+00:00" EmptyString) = None
  ∧ value (@fetch_marketaux_news E Sample.loaded "markets" 1 10) =
      NewsArticles
        [ {[ "title" := PyStr "Markets";
             "link" := PyStr "#";
             "source" := PyStr "Unknown Source";
             "published_utc" := PyStr "N/A";
             "content_for_analysis" := PyStr "Markets" ]} ]
  ∧ PyStr "N/A" ≠ PyStr EmptyString.
Proof.
  cbv zeta. split; [reflexivity|]. split; [reflexivity|].
  split; [vm_compute; reflexivity | discriminate].
Qed.

Lemma published_display_per_record_witness :
  let E := Sample.sample_env (Responded Sample.feed) in
  value (@fetch_marketaux_news E Sample.loaded "fed" 1 10) =
    NewsArticles (@normalized E <$> Sample.feed_records)
  ∧ @normalized E Sample.record_a !! "published_utc" =
      Some (PyStr "2024-05-01 12:30")
  ∧ @normalized E Sample.record_b !! "published_utc" = Some (PyStr "yesterday").
Proof.
  cbv zeta.
  pose proof (@published_display_per_record
                (Sample.sample_env (Responded Sample.feed)) Sample.loaded
                "fed" 1 10 Sample.feed
                {[ "data" := PyList (PyDict <$> Sample.feed_records) ]}
                Sample.feed_records
                ltac:(discriminate) eq_refl ltac:(left; reflexivity) eq_refl
                eq_refl feed_records_dates) as [P1 P2].
  split; [exact P1|].
  apply Forall_cons in P2 as [(_ & _ & _ & Pa) P2].
  apply Forall_cons in P2 as [(_ & _ & Pb & _) _].
  split.
  - exact (Pa "2024-05-01T12:30:00Z" "2024-05-01 12:30"
             eq_refl ltac:(discriminate) eq_refl).
  - exact (Pb "yesterday" eq_refl ltac:(discriminate) eq_refl).
Defined.

(** C1, counterexample: HTTP 429 with the body
    {"error":{"code":"rate_limit","message":"Too many requests"}} gives
    an error result that holds the message and not the code. *)
Lemma rate_limit_code_is_dropped :
  let E := Sample.sample_env (Responded Sample.rate_limited) in
  value (@fetch_marketaux_news E Sample.loaded "fed" 1 10) =
    NewsError "HTTP error connecting to MarketAux: Too many requests"
  ∧ contains "Too many requests"
      "HTTP error connecting to MarketAux: Too many requests" = true
  ∧ contains "rate_limit"
      "HTTP error connecting to MarketAux: Too many requests" = false.
Proof. cbv zeta. repeat split; vm_compute; reflexivity. Qed.

Lemma http_error_reports_message_witness :
  value (@fetch_marketaux_news (Sample.sample_env (Responded Sample.rate_limited))
           Sample.loaded "fed" 1 10) =
    NewsError "HTTP error connecting to MarketAux: Too many requests"
  ∧ value (@fetch_marketaux_news (Sample.sample_env (Responded Sample.bad_gateway))
             Sample.loaded "fed" 1 10) =
      NewsError
        "HTTP error connecting to MarketAux: Status 502, Body: <html>Bad Gateway</html>"
  ∧ value (@fetch_marketaux_news (Sample.sample_env (Responded Sample.long_failure))
             Sample.loaded "fed" 1 10) =
      NewsError
        ("HTTP error connecting to MarketAux: Status 500, Body: "
         +:+ Sample.str_repeat 199 "x" +:+ "€").
Proof.
  split; [|split].
  - pose proof (@http_error_reports_message
                  (Sample.sample_env (Responded Sample.rate_limited))
                  Sample.loaded "fed" 1 10 Sample.rate_limited
                  ltac:(discriminate) eq_refl ltac:(simpl; lia)) as [P _].
    exact (proj1 (P _ _ "Too many requests" eq_refl eq_refl eq_refl)).
  - pose proof (@http_error_reports_message
                  (Sample.sample_env (Responded Sample.bad_gateway))
                  Sample.loaded "fed" 1 10 Sample.bad_gateway
                  ltac:(discriminate) eq_refl ltac:(simpl; lia)) as [_ P].
    exact (proj1 (P _ eq_refl)).
  - pose proof (@http_error_reports_message
                  (Sample.sample_env (Responded Sample.long_failure))
                  Sample.loaded "fed" 1 10 Sample.long_failure
                  ltac:(discriminate) eq_refl ltac:(simpl; lia)) as [_ P].
    pose proof (proj1 (P _ eq_refl)) as Q.
    rewrite Q. vm_compute. reflexivity.
Defined.

(** ** The routes *)

Lemma mapM_traced_value {A B} (f : A → traced B) (l : list A) :
  value (mapM f l) = (λ x, value (f x)) <$> l.
Proof.
  induction l as [|x l IH]; [reflexivity|].
  cbn. rewrite <- IH. reflexivity.
Qed.

Lemma mapM_traced_trace {A B} (f : A → traced B) (l : list A) :
  trace (mapM f l) = concat ((λ x, trace (f x)) <$> l).
Proof.
  induction l as [|x l IH]; [reflexivity|].
  cbn. rewrite <- IH. rewrite !trace_bind. cbn [mret traced_ret trace].
  by rewrite app_nil_r.
Qed.

Section Routes.
Context `{Env} (g : globals).

Lemma analyze_calls_app (t1 t2 : list event) :
  analyze_calls (t1 ++ t2) = analyze_calls t1 ++ analyze_calls t2.
Proof. apply omap_app. Qed.

Lemma summarization_stage_calls summarize s :
  analyze_calls (trace (summarization_stage g summarize s)) = [].
Proof.
  unfold summarization_stage. destruct (tokenizer g) as [tok|]; [|done].
  rewrite trace_bind. by destruct (tok s).
Qed.

(** One call of [analyze_content] is one entry of the trace. *)
Lemma analyze_content_calls (text : pyval) :
  analyze_calls (trace (analyze_content g text)) = [text].
Proof.
  unfold analyze_content. rewrite trace_bind, analyze_calls_app.
  cbn [emit trace analyze_calls omap list_omap app]. f_equal.
  destruct (models_loaded g); [|done].
  destruct (summarizer g) as [summarize|]; [|done].
  destruct (sentiment_analyzer g) as [classify|]; [|done].
  destruct (negb (py_truthy text) || negb (is_str text)); [done|].
  rewrite !trace_bind, !analyze_calls_app, summarization_stage_calls.
  reflexivity.
Qed.

(** The loop body meets [analysed_as] on an article whose text is a
    string. *)
Lemma analyze_article_spec no_content (a : gmap string pyval) :
  analysed_as g no_content a
    (value (analyze_article g no_content a))
    (trace (analyze_article g no_content a)).
Proof.
  unfold analysed_as, analyze_article. split.
  - intros ->. done.
  - intros s -> Hs. change (default _ (Some (PyStr s))) with (PyStr s).
    rewrite py_truthy_nonempty by done.
    rewrite value_bind, trace_bind. cbn [mret traced_ret value trace].
    by rewrite app_nil_r, analyze_content_calls.
Qed.

Lemma analyze_articles_spec no_content (arts : list (gmap string pyval)) :
  Forall3 (analysed_as g no_content) arts
    (value (mapM (analyze_article g no_content) arts))
    ((λ a, trace (analyze_article g no_content a)) <$> arts).
Proof.
  rewrite mapM_traced_value.
  induction arts as [|a arts IH]; cbn; constructor;
    [apply analyze_article_spec | exact IH].
Qed.

(** With the models loaded, [home] is the fetch followed by the loop. *)
Lemma home_loaded req arts :
  models_loaded g = true →
  value (fetch_marketaux_news g "market news OR finance OR economy"
           (home_current_page req) 5) = NewsArticles arts →
  page_context (value (home g req)) !! "initial_articles" =
    Some (PyList (PyDict <$>
            value (mapM (analyze_article g "No content for analysis.") arts)))
  ∧ trace (home g req) =
      trace (fetch_marketaux_news g "market news OR finance OR economy"
               (home_current_page req) 5)
      ++ concat ((λ a, trace (analyze_article g "No content for analysis." a))
                   <$> arts).
Proof.
  intros Hm Hf. unfold home. rewrite Hm. cbn [negb].
  split.
  - rewrite !value_bind. cbn beta. rewrite Hf.
    rewrite value_bind. cbn [mret traced_ret value page_context render_template_string].
    by rewrite lookup_insert_eq.
  - rewrite !trace_bind, value_bind. cbn beta. rewrite Hf.
    rewrite trace_bind, value_bind.
    cbn [mret traced_ret value trace]. rewrite !app_nil_r.
    f_equal. apply (mapM_traced_trace (analyze_article g "No content for analysis.")).
Qed.

(** With the models loaded and a topic, [analyze_news_route] is the
    fetch followed by the loop. *)
Lemma analyze_news_route_loaded req topic arts :
  models_loaded g = true →
  form req !! "topic" = Some topic →
  topic ≠ EmptyString →
  value (fetch_marketaux_news g topic (analyze_current_page req) 10) =
    NewsArticles arts →
  page_context (value (analyze_news_route g req)) !! "articles" =
    Some (PyList (PyDict <$>
            value (mapM (analyze_article g
                     "No description/snippet available from MarketAux for analysis.")
                     arts)))
  ∧ trace (analyze_news_route g req) =
      trace (fetch_marketaux_news g topic (analyze_current_page req) 10)
      ++ concat ((λ a, trace (analyze_article g
                   "No description/snippet available from MarketAux for analysis." a))
                   <$> arts).
Proof.
  intros Hm Ht Hne Hf. unfold analyze_news_route. rewrite Hm, Ht. cbn [negb].
  destruct topic as [|c topic]; [done|].
  split.
  - rewrite !value_bind. cbn beta. rewrite Hf.
    rewrite value_bind. cbn [mret traced_ret value page_context render_template_string].
    rewrite lookup_insert_ne by done. by rewrite lookup_insert_eq.
  - rewrite trace_bind. cbn beta. rewrite Hf.
    rewrite trace_bind.
    cbn [mret traced_ret value trace]. rewrite !app_nil_r.
    f_equal.
    apply (mapM_traced_trace (analyze_article g
             "No description/snippet available from MarketAux for analysis.")).
Qed.

(** The articles [fetch_marketaux_news] returns carry a string as text:
    each of them falls under one of the two cases of [analysed_as]. *)
Lemma fetched_text_is_a_string query page n arts :
  value (fetch_marketaux_news g query page n) = NewsArticles arts →
  Forall (λ a, ∃ s, a !! "content_for_analysis" = Some (PyStr s)) arts.
Proof.
  intros (recs & _ & ->)%fetch_articles_inv.
  apply Forall_fmap, Forall_forall. intros r _. cbn.
  rewrite normalized_content. by eexists.
Qed.

(** C3, as the code has it: with the models loaded, both routes run the
    fetched articles through the loop in order.  An article whose text is empty gets the
    no-content failure of the route and no call of [analyze_content];
    an article with a text gets the outcome of [analyze_content] on
    this text and exactly one call.  Every fetched article is in one of
    the two cases. *)
Theorem empty_text_is_never_analysed req :
  models_loaded g = true →
  (∀ arts,
     value (fetch_marketaux_news g "market news OR finance OR economy"
              (home_current_page req) 5) = NewsArticles arts →
     Forall (λ a, ∃ s, a !! "content_for_analysis" = Some (PyStr s)) arts
     ∧ ∃ items ts,
         page_context (value (home g req)) !! "initial_articles" =
           Some (PyList (PyDict <$> items))
         ∧ trace (home g req) =
             trace (fetch_marketaux_news g "market news OR finance OR economy"
                      (home_current_page req) 5) ++ concat ts
         ∧ Forall3 (analysed_as g "No content for analysis.") arts items ts)
  ∧ (∀ topic arts,
       form req !! "topic" = Some topic →
       topic ≠ EmptyString →
       value (fetch_marketaux_news g topic (analyze_current_page req) 10) =
         NewsArticles arts →
       Forall (λ a, ∃ s, a !! "content_for_analysis" = Some (PyStr s)) arts
       ∧ ∃ items ts,
           page_context (value (analyze_news_route g req)) !! "articles" =
             Some (PyList (PyDict <$> items))
           ∧ trace (analyze_news_route g req) =
               trace (fetch_marketaux_news g topic (analyze_current_page req) 10)
               ++ concat ts
           ∧ Forall3
               (analysed_as g
                  "No description/snippet available from MarketAux for analysis.")
               arts items ts).
Proof.
  intros Hm. split.
  - intros arts Hf. split; [by eapply fetched_text_is_a_string|].
    destruct (home_loaded req arts Hm Hf) as [Hv Ht].
    eexists _, _. split; [exact Hv|]. split; [exact Ht|].
    apply analyze_articles_spec.
  - intros topic arts Htopic Hne Hf.
    split; [by eapply fetched_text_is_a_string|].
    destruct (analyze_news_route_loaded req topic arts Hm Htopic Hne Hf)
      as [Hv Ht].
    eexists _, _. split; [exact Hv|]. split; [exact Ht|].
    apply analyze_articles_spec.
Qed.

Lemma home_current_page_ge req : 1 ≤ home_current_page req.
Proof.
  unfold home_current_page.
  destruct (_ <? 1) eqn:E; [done|]. by apply Z.ltb_ge in E.
Qed.

Lemma analyze_current_page_ge req : 1 ≤ analyze_current_page req.
Proof.
  unfold analyze_current_page.
  destruct (match form req !! "page" with Some s => py_int s | None => Some 1 end)
    as [p|]; [|done].
  destruct (p <? 1) eqn:E; [done|]. by apply Z.ltb_ge in E.
Qed.

(** C8: the page number and the next page number a route hands to its
    template are [p] and [p + 1] with [p ≥ 1], whatever the fetch
    returned.  For [home], and for [analyze_news_route] once it
    processes the request, [p] is the requested page clamped to 1: the
    requested page itself when it is a number from 1 on. *)
Theorem next_page_is_page_plus_one req :
  (let ctx := page_context (value (home g req)) in
   ctx !! "current_page" = Some (PyInt (home_current_page req))
   ∧ ctx !! "next_page" = Some (PyInt (home_current_page req + 1))
   ∧ 1 ≤ home_current_page req
   ∧ ∀ s p, args req !! "page" = Some s → py_int s = Some p → 1 ≤ p →
       home_current_page req = p)
  ∧ (let ctx := page_context (value (analyze_news_route g req)) in
     (∃ p, 1 ≤ p ∧ ctx !! "current_page" = Some (PyInt p)
           ∧ ctx !! "next_page" = Some (PyInt (p + 1)))
     ∧ (∀ topic, models_loaded g = true →
          form req !! "topic" = Some topic → topic ≠ EmptyString →
          ctx !! "current_page" = Some (PyInt (analyze_current_page req))
          ∧ ctx !! "next_page" = Some (PyInt (analyze_current_page req + 1)))
     ∧ 1 ≤ analyze_current_page req
     ∧ ∀ s p, form req !! "page" = Some s → py_int s = Some p → 1 ≤ p →
         analyze_current_page req = p).
Proof.
  split.
  - cbv zeta. unfold home. rewrite value_bind.
    match goal with
    | |- context [value (if ?b then ?x else ?y)] =>
        destruct (value (if b then x else y)) as [error_msg processed]
    end.
    cbn [mret traced_ret value page_context render_template_string].
    split; [map_lookup|]. split; [map_lookup|].
    split; [apply home_current_page_ge|].
    intros s p Hs Hp Hge. unfold home_current_page. rewrite Hs, Hp. simpl.
    destruct (p <? 1) eqn:E; [|done]. apply Z.ltb_lt in E. lia.
  - cbv zeta.
    assert (Hroute : ∀ topic, models_loaded g = true →
      form req !! "topic" = Some topic → topic ≠ EmptyString →
      page_context (value (analyze_news_route g req)) !! "current_page" =
        Some (PyInt (analyze_current_page req))
      ∧ page_context (value (analyze_news_route g req)) !! "next_page" =
          Some (PyInt (analyze_current_page req + 1))).
    { intros topic Hm Ht Hne. unfold analyze_news_route. rewrite Hm, Ht.
      cbn [negb]. destruct topic as [|c topic]; [done|].
      rewrite value_bind.
      destruct (value (fetch_marketaux_news g _ _ _)) as [e|arts].
      - cbn [mret traced_ret value page_context render_template_string].
        split; map_lookup.
      - rewrite value_bind.
        cbn [mret traced_ret value page_context render_template_string].
        split; map_lookup. }
    pose proof (analyze_current_page_ge req) as Hge.
    split; [|split; [exact Hroute|split; [exact Hge|]]].
    + assert (Hearly : ∀ msg : string,
        ∃ p, 1 ≤ p
          ∧ ({[ "search_error" := PyStr msg;
                "marketaux_url" := PyStr MARKETAUX_WEBSITE_URL;
                "current_page" := PyInt 1;
                "next_page" := PyInt 2 ]} : gmap string pyval)
              !! "current_page" = Some (PyInt p)
          ∧ ({[ "search_error" := PyStr msg;
                "marketaux_url" := PyStr MARKETAUX_WEBSITE_URL;
                "current_page" := PyInt 1;
                "next_page" := PyInt 2 ]} : gmap string pyval)
              !! "next_page" = Some (PyInt (p + 1))).
      { intros msg. exists 1. split; [done|]. split; map_lookup. }
      destruct (models_loaded g) eqn:Hm.
      * destruct (form req !! "topic") as [[|c topic]|] eqn:Ht.
        -- unfold analyze_news_route. rewrite Hm, Ht. apply Hearly.
        -- exists (analyze_current_page req). split; [exact Hge|].
           by apply (Hroute (String c topic)).
        -- unfold analyze_news_route. rewrite Hm, Ht. apply Hearly.
      * unfold analyze_news_route. rewrite Hm. apply Hearly.
    + intros s p Hs Hp Hp1. unfold analyze_current_page. rewrite Hs, Hp.
      destruct (p <? 1) eqn:E; [|done]. apply Z.ltb_lt in E. lia.
Qed.

(** C2, as the code has it: after a failed model load, [home] still
    performs the fetch and nothing else; when the fetch succeeds its
    articles are handed to the template, each with the analysis
    {"error": "ML models not loaded."}, next to the notice that the
    models failed to load.  [analyze_news_route] performs no fetch and
    answers with a search error.  [analyze_content], which neither
    route calls in this state, answers
    {"error": "ML models not available."}. *)
Theorem degraded_mode req :
  models_loaded g = false →
  trace (home g req) =
    trace (fetch_marketaux_news g "market news OR finance OR economy"
             (home_current_page req) 5)
  ∧ (MARKETAUX_API_KEY g ≠ EmptyString →
     trace (home g req) =
       [EvHttpGet (strip "market news OR finance OR economy") 5
          (home_current_page req)])
  ∧ (∀ arts,
       value (fetch_marketaux_news g "market news OR finance OR economy"
                (home_current_page req) 5) = NewsArticles arts →
       page_context (value (home g req)) !! "initial_articles" =
         Some (PyList (PyDict <$>
           ((λ a : gmap string pyval,
               <["analysis" := PyDict {[ "error" := PyStr "ML models not loaded." ]}]> a)
              <$> arts)))
       ∧ page_context (value (home g req)) !! "initial_error" =
           Some (PyStr "ML Models failed to load. Analysis functionality may be limited."))
  ∧ analyze_news_route g req =
      Traced
        (render_template_string HTML_INDEX_TEMPLATE
           {[ "search_error" := PyStr "ML Models are not available. Check server logs.";
              "marketaux_url" := PyStr MARKETAUX_WEBSITE_URL;
              "current_page" := PyInt 1;
              "next_page" := PyInt 2 ]})
        []
  ∧ ∀ text, value (analyze_content g text) =
              {[ "error" := PyStr "ML models not available." ]}.
Proof.
  intros Hm.
  assert (Ht : trace (home g req) =
    trace (fetch_marketaux_news g "market news OR finance OR economy"
             (home_current_page req) 5)).
  { unfold home. rewrite Hm. cbn [negb]. rewrite trace_bind.
    match goal with
    | |- context [let '(_, _) := ?v in _] => destruct v
    end.
    cbn [mret traced_ret trace]. rewrite app_nil_r, trace_bind.
    destruct (value (fetch_marketaux_news g _ _ _));
      cbn [mret traced_ret trace]; by rewrite app_nil_r. }
  split; [exact Ht|]. split; [|split; [|split]].
  - intros Hkey%String.eqb_neq. rewrite Ht. unfold fetch_marketaux_news.
    by rewrite Hkey.
  - intros arts Hf. unfold home. rewrite Hm. cbn [negb].
    rewrite !value_bind. cbn beta. rewrite Hf.
    cbn [mret traced_ret value page_context render_template_string].
    split; map_lookup.
  - unfold analyze_news_route. by rewrite Hm.
  - intros text. unfold analyze_content. by rewrite Hm.
Qed.

(** C7: in both templates, an analysis that is displayed (a non-empty
    dictionary without a truthy error entry) shows its sentiment as the
    positive effect when the label is exactly "POSITIVE", as the
    negative effect when it is exactly "NEGATIVE", and as the neutral
    effect for any other label, among them "N/A" and
    "Error analyzing sentiment.", and for a missing label. *)
Theorem sentiment_is_displayed_in_three_classes
    (t : template) (article analysis : gmap string pyval) :
  article !! "analysis" = Some (PyDict analysis) →
  analysis ≠ ∅ →
  py_truthy (default PyNone (analysis !! "error")) = false →
  ∃ shown,
    render_analysis t article = ViewAnalysis (analysis !! "summary") shown
    ∧ (analysis !! "sentiment" = Some (PyStr "POSITIVE") → shown = effect_positive)
    ∧ (analysis !! "sentiment" = Some (PyStr "NEGATIVE") → shown = effect_negative)
    ∧ (∀ v, analysis !! "sentiment" = Some v →
         v ≠ PyStr "POSITIVE" → v ≠ PyStr "NEGATIVE" → shown = effect_neutral)
    ∧ (analysis !! "sentiment" = Some (PyStr "N/A") → shown = effect_neutral)
    ∧ (analysis !! "sentiment" = Some (PyStr "Error analyzing sentiment.") →
         shown = effect_neutral)
    ∧ (analysis !! "sentiment" = None → shown = effect_neutral).
Proof.
  intros Ha Hne Herr. exists (market_effect_of (analysis !! "sentiment")).
  split.
  - unfold render_analysis. rewrite Ha. cbn [py_truthy].
    rewrite bool_decide_eq_false_2 by done. rewrite Herr. by destruct t.
  - repeat split; try (by intros ->).
    intros v -> Hp Hn. destruct v as [| | | |s| |]; try done.
    unfold market_effect_of.
    destruct (String.eqb s "POSITIVE") eqn:E1;
      [apply String.eqb_eq in E1; congruence|].
    destruct (String.eqb s "NEGATIVE") eqn:E2;
      [apply String.eqb_eq in E2; congruence|].
    reflexivity.
Qed.

End Routes.

Lemma empty_text_is_never_analysed_witness :
  let E := Sample.sample_env (Responded Sample.feed) in
  let arts := @normalized E <$> Sample.feed_records in
  ∃ items ts,
    page_context (value (@home E Sample.loaded Sample.first_page))
      !! "initial_articles" = Some (PyList (PyDict <$> items))
    ∧ trace (@home E Sample.loaded Sample.first_page) =
        trace (@fetch_marketaux_news E Sample.loaded
                 "market news OR finance OR economy"
                 (@home_current_page E Sample.first_page) 5)
        ++ concat ts
    ∧ Forall3 (@analysed_as E Sample.loaded "No content for analysis.")
        arts items ts.
Proof.
  cbv zeta.
  pose proof (@empty_text_is_never_analysed
                (Sample.sample_env (Responded Sample.feed)) Sample.loaded
                Sample.first_page eq_refl) as [P _].
  refine (proj2 (P _ _)). vm_compute. reflexivity.
Defined.

(** C3, counterexample: after a failed model load, [home] gives the
    article whose text is "Fed raises rates" the analysis
    "ML models not loaded." without any call of [analyze_content], and
    gives the article without text the same analysis, which is not the
    no-content failure. *)
Lemma degraded_home_analyses_nothing :
  let E := Sample.sample_env (Responded Sample.feed) in
  let p := @home E Sample.degraded Sample.first_page in
  let marked := λ a : gmap string pyval,
    <["analysis" := PyDict {[ "error" := PyStr "ML models not loaded." ]}]> a in
  value (@fetch_marketaux_news E Sample.degraded
           "market news OR finance OR economy" 1 5) =
    NewsArticles (@normalized E <$> Sample.feed_records)
  ∧ @normalized E Sample.record_a !! "content_for_analysis" =
      Some (PyStr "Fed raises rates")
  ∧ @normalized E Sample.record_b !! "content_for_analysis" =
      Some (PyStr EmptyString)
  ∧ page_context (value p) !! "initial_articles" =
      Some (PyList (PyDict <$> (marked <$> (@normalized E <$> Sample.feed_records))))
  ∧ analyze_calls (trace p) = []
  ∧ PyStr "ML models not loaded." ≠ PyStr "No content for analysis.".
Proof.
  cbv zeta. split; [vm_compute; reflexivity|]. split; [vm_compute; reflexivity|].
  split; [vm_compute; reflexivity|]. split; [vm_compute; reflexivity|].
  split; [vm_compute; reflexivity | discriminate].
Qed.

(** C2, counterexample: after a failed model load, the article [home]
    hands to its template carries "ML models not loaded.", which is not
    "ML models not available.", the page carries an error of its own,
    and [analyze_news_route] answers without any fetch. *)
Lemma degraded_routes_differ :
  let E := Sample.sample_env (Responded Sample.undated) in
  let p := @home E Sample.degraded Sample.first_page in
  page_context (value p) !! "initial_articles" =
    Some (PyList
      [PyDict {[ "title" := PyStr "Markets";
                 "link" := PyStr "#";
                 "source" := PyStr "Unknown Source";
                 "published_utc" := PyStr "N/A";
                 "content_for_analysis" := PyStr "Markets";
                 "analysis" := PyDict {[ "error" := PyStr "ML models not loaded." ]} ]}])
  ∧ PyStr "ML models not loaded." ≠ PyStr "ML models not available."
  ∧ page_context (value p) !! "initial_error" =
      Some (PyStr "ML Models failed to load. Analysis functionality may be limited.")
  ∧ trace (@analyze_news_route E Sample.degraded Sample.first_page) = []
  ∧ page_context (value (@analyze_news_route E Sample.degraded Sample.first_page))
      !! "search_error" =
      Some (PyStr "ML Models are not available. Check server logs.").
Proof.
  cbv zeta. split; [vm_compute; reflexivity|]. split; [discriminate|].
  repeat split; vm_compute; reflexivity.
Qed.

Lemma degraded_mode_witness :
  let E := Sample.sample_env (Responded Sample.undated) in
  trace (@home E Sample.degraded Sample.first_page) =
    [EvHttpGet "market news OR finance OR economy" 5 1]
  ∧ trace (@analyze_news_route E Sample.degraded Sample.first_page) = [].
Proof.
  cbv zeta.
  pose proof (@degraded_mode
                (Sample.sample_env (Responded Sample.undated)) Sample.degraded
                Sample.first_page eq_refl) as (_ & P & _ & Q & _).
  split.
  - exact (P ltac:(discriminate)).
  - exact (f_equal trace Q).
Defined.

Lemma sentiment_is_displayed_in_three_classes_witness :
  ∃ shown,
    render_analysis HTML_RESULTS_TEMPLATE Sample.unlabelled =
      ViewAnalysis (Some (PyStr "No content provided for analysis.")) shown
    ∧ shown = effect_neutral.
Proof.
  destruct (sentiment_is_displayed_in_three_classes HTML_RESULTS_TEMPLATE
              Sample.unlabelled
              {[ "summary" := PyStr "No content provided for analysis.";
                 "sentiment" := PyStr "N/A" ]}
              eq_refl (insert_non_empty _ _ _) eq_refl)
    as (shown & P1 & _ & _ & _ & P5 & _).
  exists shown. split; [exact P1 | exact (P5 eq_refl)].
Defined.

(** * Further properties of the program *)

(** ** fetch_marketaux_news: requests and errors *)

Section FetchMore.
Context `{Env} (g : globals).

(** X1: a call of [fetch_marketaux_news] without API key returns the
    configuration error and sends nothing; with a key it sends exactly
    one request, for the stripped query, the page size and the page,
    whatever comes back. *)
Theorem fetch_sends_one_request_iff_key query page n :
  (MARKETAUX_API_KEY g = EmptyString →
     fetch_marketaux_news g query page n =
       Traced (NewsError "Server configuration error: Missing MarketAux API Key.") [])
  ∧ (MARKETAUX_API_KEY g ≠ EmptyString →
       trace (fetch_marketaux_news g query page n) =
         [EvHttpGet (strip query) n page]).
Proof.
  unfold fetch_marketaux_news. split.
  - by intros ->.
  - by intros ->%String.eqb_neq.
Qed.

(** X2: a transport failure (timeout, connection error) becomes the
    error result "Network or API request error: " followed by the text
    of the exception; nothing is retried. *)
Theorem transport_failure_is_reported query page n detail :
  MARKETAUX_API_KEY g ≠ EmptyString →
  requests_get (MARKETAUX_API_KEY g) (strip query) n page = ConnectionFailed detail →
  fetch_marketaux_news g query page n =
    Traced
      (NewsError ("Network or API request error: "
                  +:+ exc_str (RequestException detail)))
      [EvHttpGet (strip query) n page].
Proof.
  intros Hkey%String.eqb_neq Hget. unfold fetch_marketaux_news.
  by rewrite Hkey, Hget.
Qed.

Lemma process_response_no_data r body :
  status_code r < 400 ∨ 600 ≤ status_code r →
  json r = Ok (PyDict body) →
  (∀ l, body !! "data" ≠ Some (PyList l)) →
  process_response r = api_error_result (PyDict body).
Proof.
  intros Hs Hj Hd. unfold process_response.
  rewrite (raise_for_status_ok r Hs), Hj.
  cbn [mbind result_bind py_in py_index].
  destruct (body !! "data") as [v|] eqn:E.
  - rewrite (bool_decide_eq_true_2 (is_Some (Some v))) by eauto.
    cbn [mbind result_bind]. destruct v; try done. by destruct (Hd l).
  - rewrite (bool_decide_eq_false_2 (is_Some None)); [done|].
    by intros [? ?].
Qed.

(** X3: when a response that is not 4xx/5xx carries an object without a
    list under "data" and with an object under "error", the error
    result holds the code and the message of that object, "N/A" and
    "Unknown API error from MarketAux" standing in for a missing one. *)
Theorem api_error_body_reports_code_and_message query page n r body details :
  MARKETAUX_API_KEY g ≠ EmptyString →
  requests_get (MARKETAUX_API_KEY g) (strip query) n page = Responded r →
  status_code r < 400 ∨ 600 ≤ status_code r →
  json r = Ok (PyDict body) →
  (∀ l, body !! "data" ≠ Some (PyList l)) →
  body !! "error" = Some (PyDict details) →
  value (fetch_marketaux_news g query page n) =
    NewsError
      ("MarketAux News API Error ("
       +:+ py_str (default (PyStr "N/A") (details !! "code")) +:+ "): "
       +:+ py_str (default (PyStr "Unknown API error from MarketAux")
                     (details !! "message"))).
Proof.
  intros Hkey%String.eqb_neq Hget Hs Hj Hd He. unfold fetch_marketaux_news.
  rewrite Hkey, Hget, (process_response_no_data r body Hs Hj Hd).
  unfold api_error_result. cbn [mbind result_bind py_in py_index].
  rewrite He. rewrite (bool_decide_eq_true_2 (is_Some (Some (PyDict details))))
    by eauto.
  reflexivity.
Qed.

(** X4: when such a response carries an object with neither a list
    under "data" nor an object under "error", the error result is
    "Unexpected response format received from MarketAux.". *)
Theorem unexpected_body_is_reported query page n r body :
  MARKETAUX_API_KEY g ≠ EmptyString →
  requests_get (MARKETAUX_API_KEY g) (strip query) n page = Responded r →
  status_code r < 400 ∨ 600 ≤ status_code r →
  json r = Ok (PyDict body) →
  (∀ l, body !! "data" ≠ Some (PyList l)) →
  (∀ d, body !! "error" ≠ Some (PyDict d)) →
  value (fetch_marketaux_news g query page n) =
    NewsError "Unexpected response format received from MarketAux.".
Proof.
  intros Hkey%String.eqb_neq Hget Hs Hj Hd He. unfold fetch_marketaux_news.
  rewrite Hkey, Hget, (process_response_no_data r body Hs Hj Hd).
  unfold api_error_result. cbn [mbind result_bind py_in py_index].
  destruct (body !! "error") as [v|] eqn:E.
  - rewrite (bool_decide_eq_true_2 (is_Some (Some v))) by eauto.
    cbn [mbind result_bind]. destruct v; try done. by destruct (He d).
  - rewrite (bool_decide_eq_false_2 (is_Some None)); [done|].
    by intros [? ?].
Qed.



Lemma normalized_keys (d : gmap string pyval) :
  dom (normalized d) = article_keys.
Proof.
  unfold normalized, article_keys.
  rewrite !dom_insert_L, dom_singleton_L. set_solver.
Qed.

(** X6: every article [fetch_marketaux_news] returns has exactly the
    five keys title, link, source, published_utc and
    content_for_analysis; in particular it has no analysis yet. *)
Theorem fetched_articles_have_five_keys query page n arts :
  value (fetch_marketaux_news g query page n) = NewsArticles arts →
  Forall (λ a : gmap string pyval,
            dom a = article_keys ∧ a !! "analysis" = None) arts.
Proof.
  intros (recs & _ & ->)%fetch_articles_inv.
  apply Forall_fmap, Forall_forall. intros d _. cbn.
  split; [apply normalized_keys|].
  unfold normalized. rewrite !lookup_insert_ne by done.
  by apply lookup_singleton_ne.
Qed.

Lemma normalize_article_not_ok (v : pyval) :
  record_ok v = false →
  ∃ ty attr, normalize_article v = Raise (AttributeError ty attr).
Proof.
  intros Hv. destruct v as [| | | | | |d]; try (by eexists _, _).
  unfold normalize_article. rewrite content_for_analysis_dict.
  cbn [mbind result_bind]. unfold published_utc. cbn [py_get mbind result_bind].
  cbn in Hv. destruct (d !! "published_at") as [w|]; [|discriminate].
  change (default PyNone (Some w)) with w.
  apply orb_false_iff in Hv as [Ht%negb_false_iff Hstr]. rewrite Ht.
  destruct w; try discriminate; by eexists _, _.
Qed.

Lemma mapM_normalize_not_ok (raws : list pyval) :
  forallb record_ok raws = false →
  ∃ ty attr, mapM normalize_article raws = Raise (AttributeError ty attr).
Proof.
  induction raws as [|v raws IH]; [discriminate|].
  cbn [forallb]. intros Hf. cbn.
  destruct (normalize_article v) as [a|e] eqn:Hv; cbn.
  - destruct (record_ok v) eqn:Hok.
    + destruct (IH Hf) as (ty & attr & ->). by eexists _, _.
    + apply normalize_article_not_ok in Hok as (ty & attr & Hr). congruence.
  - destruct (record_ok v) eqn:Hok.
    + destruct v as [| | | | | |d]; try discriminate.
      assert (Hd : date_is_text d).
      { intros w Hw Ht. cbn in Hok. rewrite Hw, Ht in Hok. exact Hok. }
      rewrite normalize_article_dict in Hv by done. discriminate.
    + apply normalize_article_not_ok in Hok as (ty & attr & Hr).
      rewrite Hr in Hv. injection Hv as <-. by eexists _, _.
Qed.

(** X7: one record of the list that is not an object, or whose
    [published_at] is truthy without being a string, loses the whole
    page: the result is the error "An unexpected error occurred: "
    followed by the text of an [AttributeError], and no article. *)
Theorem one_bad_record_fails_the_page query page n r body raws :
  MARKETAUX_API_KEY g ≠ EmptyString →
  requests_get (MARKETAUX_API_KEY g) (strip query) n page = Responded r →
  status_code r < 400 ∨ 600 ≤ status_code r →
  json r = Ok (PyDict body) →
  body !! "data" = Some (PyList raws) →
  forallb record_ok raws = false →
  ∃ ty attr,
    value (fetch_marketaux_news g query page n) =
      NewsError ("An unexpected error occurred: "
                 +:+ exc_str (AttributeError ty attr)).
Proof.
  intros Hkey%String.eqb_neq Hget Hs Hj Hd Hbad.
  destruct (mapM_normalize_not_ok raws Hbad) as (ty & attr & Hm).
  exists ty, attr. unfold fetch_marketaux_news. rewrite Hkey, Hget.
  rewrite (process_response_data r body raws (raise_for_status_ok r Hs) Hj Hd).
  by rewrite Hm.
Qed.

(** X8: the placeholders "No Title", "#" and "Unknown Source" stand in
    for a key the record does not have; a key that is present keeps its
    value, null included. *)
Theorem placeholders_stand_for_missing_keys (d a : gmap string pyval) :
  normalize_article (PyDict d) = Ok a →
  a !! "title" = Some (default (PyStr "No Title") (d !! "title"))
  ∧ a !! "link" = Some (default (PyStr "#") (d !! "url"))
  ∧ a !! "source" = Some (default (PyStr "Unknown Source") (d !! "source"))
  ∧ (d !! "title" = Some PyNone → a !! "title" = Some PyNone)
  ∧ (d !! "title" = None → a !! "title" = Some (PyStr "No Title")).
Proof.
  intros (d' & [= <-] & _ & ->)%normalize_article_inv.
  assert (Ht : normalized d !! "title" =
               Some (default (PyStr "No Title") (d !! "title")))
    by (unfold normalized; map_lookup).
  split; [exact Ht|]. split; [unfold normalized; map_lookup|].
  split; [unfold normalized; map_lookup|].
  split; intros E; by rewrite Ht, E.
Qed.

Lemma process_response_ok_cases r res :
  process_response r = Ok res →
  (∃ arts, res = NewsArticles arts) ∨ ∃ data, api_error_result data = Ok res.
Proof.
  unfold process_response.
  destruct (raise_for_status r); [|discriminate].
  destruct (json r) as [data|]; [|discriminate].
  cbn [mbind result_bind].
  destruct (py_in "data" data) as [[]|]; cbn [mbind result_bind];
    [| by right; exists data | discriminate].
  destruct (py_index data "data") as [v|]; cbn [mbind result_bind];
    [|discriminate].
  destruct v; try (by right; exists data).
  destruct (py_get data "data" (PyList [])) as [raw|];
    cbn [mbind result_bind]; [|discriminate].
  destruct raw; try discriminate.
  destruct (mapM normalize_article _) as [k|];
    cbn [mbind result_bind]; [|discriminate].
  intros [= <-]. left. by eexists.
Qed.

Lemma api_error_result_message data msg :
  api_error_result data = Ok (NewsError msg) →
  String.prefix "MarketAux News API Error (" msg = true
  ∨ msg = "Unexpected response format received from MarketAux.".
Proof.
  unfold api_error_result.
  destruct (py_in "error" data) as [[]|]; cbn [mbind result_bind];
    [|intros [= <-]; by right|discriminate].
  destruct (py_index data "error") as [v|]; cbn [mbind result_bind];
    [|discriminate].
  destruct v; cbn [mbind result_bind py_get];
    try (intros [= <-]; by right).
  intros [= <-]. left. apply prefix_app.
Qed.

Lemma prefix_nonempty (p s : string) :
  p ≠ EmptyString → String.prefix p s = true → s ≠ EmptyString.
Proof. intros Hp Hs ->. by destruct p. Qed.

Lemma fetch_error_prefix query page n msg :
  value (fetch_marketaux_news g query page n) = NewsError msg →
  Exists (λ p, String.prefix p msg = true) fetch_error_prefixes
  ∧ msg ≠ EmptyString.
Proof.
  intros Hv.
  assert (Hex : Exists (λ p, String.prefix p msg = true) fetch_error_prefixes).
  { revert Hv. unfold fetch_marketaux_news, fetch_error_prefixes.
    destruct (String.eqb _ _).
    { intros [= <-]. by apply Exists_cons_hd. }
    rewrite value_bind. cbn [value mret traced_ret].
    destruct (requests_get _ _ _ _) as [detail|r].
    { intros [= <-]. do 2 apply Exists_cons_tl. apply Exists_cons_hd, prefix_app. }
    destruct (process_response r) as [res|e] eqn:Hp.
    - intros ->. apply process_response_ok_cases in Hp as [[arts [=]]|[data Hd]].
      apply api_error_result_message in Hd as [Hd| ->].
      + do 4 apply Exists_cons_tl. by apply Exists_cons_hd.
      + do 5 apply Exists_cons_tl. by apply Exists_cons_hd.
    - destruct e; intros [= <-];
        first [ apply Exists_cons_tl, Exists_cons_hd, prefix_app
              | do 2 apply Exists_cons_tl; apply Exists_cons_hd, prefix_app
              | do 3 apply Exists_cons_tl; apply Exists_cons_hd, prefix_app ]. }
  split; [exact Hex|].
  apply Exists_exists in Hex as (p & Hin & Hp).
  apply (prefix_nonempty p); [|exact Hp].
  unfold fetch_error_prefixes in Hin.
  repeat (apply elem_of_cons in Hin as [->|Hin]; [done|]).
  by apply elem_of_nil in Hin.
Qed.

(** X9: every error message of [fetch_marketaux_news] is non-empty and
    starts in one of six ways, which tell the missing key, the HTTP
    error, the transport error, the unexpected exception, the error
    reported by the API and the unexpected body apart. *)
Theorem fetch_errors_are_labelled query page n msg :
  value (fetch_marketaux_news g query page n) = NewsError msg →
  Exists (λ p, String.prefix p msg = true) fetch_error_prefixes
  ∧ msg ≠ EmptyString.
Proof. apply fetch_error_prefix. Qed.

End FetchMore.

(** ** analyze_content: degraded mode, sentinel and calls *)

Lemma str_take_all (n : nat) (s : string) :
  (str_len s ≤ n)%nat → str_take n s = s.
Proof.
  revert n. induction s as [|c s IH]; intros n Hn; [done|].
  cbn in *. destruct (is_continuation c).
  - f_equal. by apply IH.
  - destruct n as [|n]; [lia|]. f_equal. apply IH. lia.
Qed.

Lemma str_take_exact (n : nat) (s : string) :
  (n ≤ str_len s)%nat → str_len (str_take n s) = n.
Proof.
  revert n. induction s as [|c s IH]; intros n Hn; cbn in *; [lia|].
  destruct (is_continuation c) eqn:E; cbn; rewrite ?E; [by apply IH|].
  destruct n as [|n]; [done|]. cbn. rewrite E. f_equal. apply IH. lia.
Qed.

Section AnalyzeMore.
Context `{Env} (g : globals).

(** X10: when the models are not available (the flag is off, or one of
    the two pipelines is missing), [analyze_content] answers
    {"error": "ML models not available."} for any argument and calls
    no backend. *)
Theorem analyze_content_unavailable (text : pyval) :
  models_loaded g = false ∨ summarizer g = None ∨ sentiment_analyzer g = None →
  analyze_content g text =
    Traced {[ "error" := PyStr "ML models not available." ]} [EvAnalyze text].
Proof.
  unfold analyze_content.
  intros [-> | [-> | ->]]; [done| |].
  - by destruct (models_loaded g).
  - by destruct (models_loaded g), (summarizer g).
Qed.

(** X11: with the models available, an argument that is empty or not a
    string gets the sentinel outcome (summary "No content provided for
    analysis.", sentiment "N/A") and no backend is called. *)
Theorem analyze_content_sentinel (text : pyval) summarize classify :
  models_loaded g = true →
  summarizer g = Some summarize →
  sentiment_analyzer g = Some classify →
  py_truthy text = false ∨ is_str text = false →
  analyze_content g text =
    Traced {[ "summary" := PyStr "No content provided for analysis.";
              "sentiment" := PyStr "N/A" ]}
           [EvAnalyze text].
Proof.
  intros Hm Hs Hc Ht. unfold analyze_content. rewrite Hm, Hs, Hc.
  assert (negb (py_truthy text) || negb (is_str text) = true) as ->.
  { destruct Ht as [-> | ->]; [done|]. apply orb_true_r. }
  reflexivity.
Qed.

(** X12: on a non-empty string with the models loaded, the backends are
    called in a fixed order and at most once each: the tokenizer on the
    text, the summarizer on what the tokenizer gave back and only if it
    gave something back, the classifier on the first 512 characters of
    the text in every case. *)
Theorem analyze_content_backend_calls s tokenize summarize classify :
  models_loaded g = true →
  tokenizer g = Some tokenize →
  summarizer g = Some summarize →
  sentiment_analyzer g = Some classify →
  s ≠ EmptyString →
  trace (analyze_content g (PyStr s)) =
    [EvAnalyze (PyStr s); EvTokenizer s]
    ++ match tokenize s with
       | Some decoded => [EvSummarizer decoded]
       | None => []
       end
    ++ [EvSentiment (str_take 512 s)].
Proof.
  intros Hm Ht Hs Hc Hne.
  destruct (analyze_content_loaded g s summarize classify Hm Hs Hc Hne)
    as [_ ->].
  unfold summarization_stage. rewrite Ht, trace_bind.
  cbn [emit trace app]. by destruct (tokenize s).
Qed.

Lemma analyze_content_shape (text : pyval) :
  let analysis := value (analyze_content g text) in
  analysis = {[ "error" := PyStr "ML models not available." ]}
  ∨ (∃ summary sentiment : string,
       analysis = {[ "summary" := PyStr summary; "sentiment" := PyStr sentiment ]}
       ∧ analysis !! "error" = None).
Proof.
  cbv zeta. unfold analyze_content. rewrite value_bind.
  destruct (models_loaded g); [|by left].
  destruct (summarizer g) as [summarize|]; [|by left].
  destruct (sentiment_analyzer g) as [classify|]; [|by left].
  right.
  destruct (negb (py_truthy text) || negb (is_str text)).
  - eexists _, _. split; [reflexivity|].
    cbn [value mret traced_ret]. rewrite !lookup_insert_ne by done.
    by apply lookup_singleton_ne.
  - rewrite !value_bind. cbn [value mret traced_ret]. eexists _, _.
    split; [by apply insert_insert_ne|].
    by rewrite !lookup_insert_ne, lookup_empty by done.
Qed.

(** X13: whatever the argument and the state of the models, the outcome
    of [analyze_content] has one of two shapes: the single entry
    "error", or the two entries "summary" and "sentiment" and no
    "error". *)
Theorem analyze_content_outcome_shape (text : pyval) :
  let analysis := value (analyze_content g text) in
  analysis = {[ "error" := PyStr "ML models not available." ]}
  ∨ (∃ summary sentiment : string,
       analysis = {[ "summary" := PyStr summary; "sentiment" := PyStr sentiment ]}
       ∧ analysis !! "error" = None).
Proof. apply analyze_content_shape. Qed.

(** X14: the classifier sees the whole text when it has at most 512
    characters (the sentiment entry is then its answer on the text
    itself), and exactly 512 characters of it otherwise. *)
Theorem sentiment_stage_input s summarize classify :
  models_loaded g = true →
  summarizer g = Some summarize →
  sentiment_analyzer g = Some classify →
  s ≠ EmptyString →
  ((str_len s ≤ 512)%nat →
     value (analyze_content g (PyStr s)) !! "sentiment" =
       Some (PyStr (default "Error analyzing sentiment." (classify s)))
     ∧ EvSentiment s ∈ trace (analyze_content g (PyStr s)))
  ∧ ((512 < str_len s)%nat →
       ∃ input, EvSentiment input ∈ trace (analyze_content g (PyStr s))
                ∧ str_len input = 512%nat
                ∧ String.prefix input s = true).
Proof.
  intros Hm Hs Hc Hne.
  destruct (analyze_content_loaded g s summarize classify Hm Hs Hc Hne)
    as [Hv Ht].
  assert (Hev : EvSentiment (str_take 512 s) ∈ trace (analyze_content g (PyStr s))).
  { rewrite Ht. apply elem_of_cons. right. apply elem_of_app. right.
    by apply list_elem_of_singleton. }
  split.
  - intros Hlen. rewrite (str_take_all 512 s Hlen) in Hv, Hev.
    split; [|exact Hev]. rewrite Hv. apply lookup_insert_eq.
  - intros Hlen. exists (str_take 512 s). split; [exact Hev|].
    split; [apply str_take_exact; lia | apply str_take_prefix].
Qed.

End AnalyzeMore.

(** ** The routes: parameters, errors and requests *)

Lemma lstrip_all_space (s : string) :
  all_space s = true → lstrip s = EmptyString.
Proof.
  assert (Hn : ∀ n s, (String.length s < n)%nat → all_space s = true →
                      lstrip s = EmptyString).
  { clear s. induction n as [|n IH]; intros s Hlen Hs; [lia|].
    destruct s as [|a t]; [done|]. cbn in Hs |- *. cbn in Hlen.
    destruct (space1 a); [apply IH; [lia|done]|].
    destruct t as [|b u]; [done|]. cbn in Hlen.
    destruct (space2 a b); [apply IH; [lia|done]|].
    destruct u as [|c v]; [done|]. cbn in Hlen.
    destruct (space3 a b c); [|done]. apply IH; [lia|done]. }
  apply (Hn (S (String.length s))). lia.
Qed.

Lemma strip_all_space (s : string) : all_space s = true → strip s = EmptyString.
Proof. intros Hs. unfold strip. by rewrite lstrip_all_space. Qed.

Section RoutesMore.
Context `{Env} (g : globals).

(** X15: both routes fall back to page 1 when the page parameter is
    missing, is not a number, or is a number below 1. *)
Theorem page_parameter_falls_back_to_one req :
  (args req !! "page" = None → home_current_page req = 1)
  ∧ (∀ s, args req !! "page" = Some s → py_int s = None →
       home_current_page req = 1)
  ∧ (∀ s p, args req !! "page" = Some s → py_int s = Some p → p < 1 →
       home_current_page req = 1)
  ∧ (form req !! "page" = None → analyze_current_page req = 1)
  ∧ (∀ s, form req !! "page" = Some s → py_int s = None →
       analyze_current_page req = 1)
  ∧ (∀ s p, form req !! "page" = Some s → py_int s = Some p → p < 1 →
       analyze_current_page req = 1).
Proof.
  unfold home_current_page, analyze_current_page.
  split; [by intros ->|]. split; [by intros s -> ->|].
  split; [intros s p -> -> Hp%Z.ltb_lt; simpl; by rewrite Hp|].
  split; [by intros ->|]. split; [by intros s -> ->|].
  intros s p -> -> Hp%Z.ltb_lt. by rewrite Hp.
Qed.

(** When the fetch fails, [home] is that fetch and a page with the
    error, in either state of the models. *)
Lemma home_fetch_error req e :
  value (fetch_marketaux_news g "market news OR finance OR economy"
           (home_current_page req) 5) = NewsError e →
  home g req =
    Traced
      (render_template_string HTML_INDEX_TEMPLATE
         {[ "initial_articles" := PyList [];
            "initial_error" := PyStr e;
            "marketaux_url" := PyStr MARKETAUX_WEBSITE_URL;
            "current_page" := PyInt (home_current_page req);
            "next_page" := PyInt (home_current_page req + 1) ]})
      (trace (fetch_marketaux_news g "market news OR finance OR economy"
                (home_current_page req) 5)).
Proof.
  unfold home.
  destruct (fetch_marketaux_news g _ _ _) as [v t]. cbn [value trace].
  intros ->. destruct (models_loaded g); cbn; by rewrite !app_nil_r.
Qed.

(** After a failed model load and a successful fetch, [home] is that
    fetch and a page with the notice and the marked articles. *)
Lemma home_degraded_articles req arts :
  models_loaded g = false →
  value (fetch_marketaux_news g "market news OR finance OR economy"
           (home_current_page req) 5) = NewsArticles arts →
  home g req =
    Traced
      (render_template_string HTML_INDEX_TEMPLATE
         {[ "initial_articles" :=
              PyList (PyDict <$>
                ((λ a : gmap string pyval,
                    <["analysis" := PyDict {[ "error" := PyStr "ML models not loaded." ]}]> a)
                   <$> arts));
            "initial_error" :=
              PyStr "ML Models failed to load. Analysis functionality may be limited.";
            "marketaux_url" := PyStr MARKETAUX_WEBSITE_URL;
            "current_page" := PyInt (home_current_page req);
            "next_page" := PyInt (home_current_page req + 1) ]})
      (trace (fetch_marketaux_news g "market news OR finance OR economy"
                (home_current_page req) 5)).
Proof.
  intros Hm. unfold home. rewrite Hm.
  destruct (fetch_marketaux_news g _ _ _) as [v t]. cbn [value trace].
  intros ->. cbn. by rewrite !app_nil_r.
Qed.

Lemma render_items_dicts (t : template) (items : list (gmap string pyval)) :
  mapM (render_item t) (PyDict <$> items) = Some (view_of_article t <$> items).
Proof.
  induction items as [|d items IH]; [done|].
  cbn. cbn in IH. by rewrite IH.
Qed.

(** The page [home] builds, as the index template shows it. *)
Lemma render_home_page (items : list (gmap string pyval)) (error cur next : pyval) :
  render_page
    (render_template_string HTML_INDEX_TEMPLATE
       {[ "initial_articles" := PyList (PyDict <$> items);
          "initial_error" := error;
          "marketaux_url" := PyStr MARKETAUX_WEBSITE_URL;
          "current_page" := cur;
          "next_page" := next ]}) =
  Some {| view_current_page := Some cur;
          view_news :=
            if py_truthy error then NewsViewError error
            else match items with
                 | [] => NewsViewEmpty
                 | _ => NewsViewList (view_of_article HTML_INDEX_TEMPLATE <$> items)
                          (Some next)
                 end;
          view_search_error := None |}.
Proof.
  unfold render_page, render_news, render_search_error.
  cbn [page_template page_context render_template_string].
  set (ctx := ({[ "initial_articles" := PyList (PyDict <$> items);
                  "initial_error" := error;
                  "marketaux_url" := PyStr MARKETAUX_WEBSITE_URL;
                  "current_page" := cur;
                  "next_page" := next ]} : gmap string pyval)).
  assert (ctx !! "initial_error" = Some error) as -> by (unfold ctx; map_lookup).
  assert (ctx !! "initial_articles" = Some (PyList (PyDict <$> items))) as ->
    by (unfold ctx; map_lookup).
  assert (ctx !! "current_page" = Some cur) as -> by (unfold ctx; map_lookup).
  assert (ctx !! "next_page" = Some next) as -> by (unfold ctx; map_lookup).
  assert (ctx !! "search_error" = None) as ->.
  { unfold ctx. rewrite !lookup_insert_ne by done. by apply lookup_singleton_ne. }
  cbn [ctx_truthy]. destruct (py_truthy error); [done|].
  destruct items as [|d items]; [done|].
  cbn [py_truthy fmap list_fmap]. rewrite (render_items_dicts _ (d :: items)).
  reflexivity.
Qed.

(** X16: when the fetch fails, [home] makes no other call and hands the
    template the error message and an empty list; the page shows the
    error paragraph with this message, in either state of the models. *)
Theorem home_shows_the_fetch_error req e :
  value (fetch_marketaux_news g "market news OR finance OR economy"
           (home_current_page req) 5) = NewsError e →
  trace (home g req) =
    trace (fetch_marketaux_news g "market news OR finance OR economy"
             (home_current_page req) 5)
  ∧ page_context (value (home g req)) !! "initial_error" = Some (PyStr e)
  ∧ page_context (value (home g req)) !! "initial_articles" = Some (PyList [])
  ∧ render_page (value (home g req)) =
      Some {| view_current_page := Some (PyInt (home_current_page req));
              view_news := NewsViewError (PyStr e);
              view_search_error := None |}.
Proof.
  intros Hf. rewrite (home_fetch_error req e Hf). cbn [value trace].
  split; [done|].
  cbn [page_context render_template_string].
  split; [map_lookup|]. split; [map_lookup|].
  rewrite (render_home_page [] (PyStr e)).
  destruct (fetch_error_prefix g _ _ _ e Hf) as [_ Hne].
  by rewrite py_truthy_nonempty.
Qed.

(** X17: after a failed model load, the page of [home] shows an error
    paragraph and no article: the message of the fetch when it failed,
    and the notice that the models failed to load when the fetch
    succeeded, whatever articles it returned. *)
Theorem degraded_home_shows_no_article req :
  models_loaded g = false →
  (∀ arts,
     value (fetch_marketaux_news g "market news OR finance OR economy"
              (home_current_page req) 5) = NewsArticles arts →
     render_page (value (home g req)) =
       Some {| view_current_page := Some (PyInt (home_current_page req));
               view_news :=
                 NewsViewError
                   (PyStr "ML Models failed to load. Analysis functionality may be limited.");
               view_search_error := None |})
  ∧ ∃ e, render_page (value (home g req)) =
           Some {| view_current_page := Some (PyInt (home_current_page req));
                   view_news := NewsViewError (PyStr e);
                   view_search_error := None |}.
Proof.
  intros Hm.
  assert (Hok : ∀ arts,
     value (fetch_marketaux_news g "market news OR finance OR economy"
              (home_current_page req) 5) = NewsArticles arts →
     render_page (value (home g req)) =
       Some {| view_current_page := Some (PyInt (home_current_page req));
               view_news :=
                 NewsViewError
                   (PyStr "ML Models failed to load. Analysis functionality may be limited.");
               view_search_error := None |}).
  { intros arts Hf. rewrite (home_degraded_articles req arts Hm Hf).
    cbn [value]. by rewrite render_home_page. }
  split; [exact Hok|].
  destruct (value (fetch_marketaux_news g "market news OR finance OR economy"
                     (home_current_page req) 5)) as [e|arts] eqn:Hf.
  - exists e. rewrite (home_fetch_error req e Hf). cbn [value].
    rewrite (render_home_page [] (PyStr e)).
    destruct (fetch_error_prefix g _ _ _ e Hf) as [_ Hne].
    by rewrite py_truthy_nonempty.
  - eexists. by apply (Hok arts).
Qed.

Lemma http_calls_app (t1 t2 : list event) :
  http_calls (t1 ++ t2) = http_calls t1 ++ http_calls t2.
Proof. apply omap_app. Qed.

Lemma http_calls_analyze_content (text : pyval) :
  http_calls (trace (analyze_content g text)) = [].
Proof.
  unfold analyze_content. rewrite trace_bind, http_calls_app.
  cbn [emit trace http_calls omap list_omap app].
  destruct (models_loaded g); [|done].
  destruct (summarizer g) as [summarize|]; [|done].
  destruct (sentiment_analyzer g) as [classify|]; [|done].
  destruct (negb (py_truthy text) || negb (is_str text)); [done|].
  rewrite !trace_bind, !http_calls_app.
  unfold summarization_stage. destruct (tokenizer g) as [tok|]; [|done].
  rewrite trace_bind. by destruct (tok (py_str text)).
Qed.

Lemma http_calls_analyze_articles no_content (arts : list (gmap string pyval)) :
  http_calls (concat ((λ a, trace (analyze_article g no_content a)) <$> arts)) = [].
Proof.
  induction arts as [|a arts IH]; [done|].
  cbn [fmap list_fmap concat]. rewrite http_calls_app, IH, app_nil_r.
  unfold analyze_article. destruct (py_truthy _); [|done].
  rewrite trace_bind, http_calls_app, http_calls_analyze_content. done.
Qed.

Lemma http_calls_fetch query page n :
  MARKETAUX_API_KEY g ≠ EmptyString →
  http_calls (trace (fetch_marketaux_news g query page n)) =
    [(strip query, n, page)].
Proof.
  intros Hkey%String.eqb_neq. unfold fetch_marketaux_news. by rewrite Hkey.
Qed.

(** X18: with an API key, a call of [home] sends exactly one request,
    for the fixed query "market news OR finance OR economy", five
    articles and the clamped page, in either state of the models and
    whatever the analysis does; [analyze_news_route], once it has the
    models and a topic, sends exactly one, for the stripped topic, ten
    articles and the clamped page. *)
Theorem routes_send_one_request req :
  MARKETAUX_API_KEY g ≠ EmptyString →
  http_calls (trace (home g req)) =
    [(strip "market news OR finance OR economy", 5, home_current_page req)]
  ∧ (∀ topic,
       models_loaded g = true →
       form req !! "topic" = Some topic →
       topic ≠ EmptyString →
       http_calls (trace (analyze_news_route g req)) =
         [(strip topic, 10, analyze_current_page req)]).
Proof.
  intros Hkey. split.
  - destruct (value (fetch_marketaux_news g "market news OR finance OR economy"
                       (home_current_page req) 5)) as [e|arts] eqn:Hf.
    + rewrite (home_fetch_error req e Hf). cbn [trace].
      by apply http_calls_fetch.
    + destruct (models_loaded g) eqn:Hm.
      * destruct (home_loaded g req arts Hm Hf) as [_ ->].
        rewrite http_calls_app, http_calls_analyze_articles, app_nil_r.
        by apply http_calls_fetch.
      * rewrite (home_degraded_articles req arts Hm Hf). cbn [trace].
        by apply http_calls_fetch.
  - intros topic Hm Ht Hne.
    destruct (value (fetch_marketaux_news g topic (analyze_current_page req) 10))
      as [e|arts] eqn:Hf.
    + unfold analyze_news_route. rewrite Hm, Ht. cbn [negb].
      destruct topic as [|c topic]; [done|].
      rewrite trace_bind. cbn beta. rewrite Hf.
      cbn [mret traced_ret trace]. rewrite app_nil_r.
      by apply http_calls_fetch.
    + destruct (analyze_news_route_loaded g req topic arts Hm Ht Hne Hf)
        as [_ ->].
      rewrite http_calls_app, http_calls_analyze_articles, app_nil_r.
      by apply http_calls_fetch.
Qed.

(** X19: a topic made of whitespace only passes the test on the topic
    and is searched as the empty string. *)
Theorem blank_topic_is_searched req topic :
  MARKETAUX_API_KEY g ≠ EmptyString →
  models_loaded g = true →
  form req !! "topic" = Some topic →
  topic ≠ EmptyString →
  all_space topic = true →
  http_calls (trace (analyze_news_route g req)) =
    [(EmptyString, 10, analyze_current_page req)].
Proof.
  intros Hkey Hm Ht Hne Hsp.
  destruct (value (fetch_marketaux_news g topic (analyze_current_page req) 10))
    as [e|arts] eqn:Hf.
  - unfold analyze_news_route. rewrite Hm, Ht. cbn [negb].
    destruct topic as [|c topic]; [done|].
    rewrite trace_bind. cbn beta. rewrite Hf.
    cbn [mret traced_ret trace]. rewrite app_nil_r.
    rewrite http_calls_fetch by done. by rewrite strip_all_space.
  - destruct (analyze_news_route_loaded g req topic arts Hm Ht Hne Hf)
      as [_ ->].
    rewrite http_calls_app, http_calls_analyze_articles, app_nil_r.
    rewrite http_calls_fetch by done. by rewrite strip_all_space.
Qed.

(** X20: with the models loaded and no topic, or an empty one,
    [analyze_news_route] sends nothing and answers with the index page:
    page 1, no news and the search error "Please enter a news topic or
    ticker.". *)
Theorem route_without_topic req :
  models_loaded g = true →
  form req !! "topic" = None ∨ form req !! "topic" = Some EmptyString →
  trace (analyze_news_route g req) = []
  ∧ page_template (value (analyze_news_route g req)) = HTML_INDEX_TEMPLATE
  ∧ render_page (value (analyze_news_route g req)) =
      Some {| view_current_page := Some (PyInt 1);
              view_news := NewsViewEmpty;
              view_search_error :=
                Some (PyStr "Please enter a news topic or ticker.") |}.
Proof.
  intros Hm Ht.
  assert (analyze_news_route g req =
    Traced (render_template_string HTML_INDEX_TEMPLATE
              {[ "search_error" := PyStr "Please enter a news topic or ticker.";
                 "marketaux_url" := PyStr MARKETAUX_WEBSITE_URL;
                 "current_page" := PyInt 1;
                 "next_page" := PyInt 2 ]}) []) as ->.
  { unfold analyze_news_route. rewrite Hm. by destruct Ht as [-> | ->]. }
  split; [done|]. split; [done|].
  unfold render_page, render_news, render_search_error.
  cbn [value page_template page_context render_template_string].
  set (ctx := ({[ "search_error" := PyStr "Please enter a news topic or ticker.";
                  "marketaux_url" := PyStr MARKETAUX_WEBSITE_URL;
                  "current_page" := PyInt 1;
                  "next_page" := PyInt 2 ]} : gmap string pyval)).
  assert (ctx !! "initial_error" = None) as ->.
  { unfold ctx. rewrite !lookup_insert_ne by done. by apply lookup_singleton_ne. }
  assert (ctx !! "initial_articles" = None) as ->.
  { unfold ctx. rewrite !lookup_insert_ne by done. by apply lookup_singleton_ne. }
  assert (ctx !! "search_error" =
          Some (PyStr "Please enter a news topic or ticker.")) as ->
    by (unfold ctx; map_lookup).
  assert (ctx !! "current_page" = Some (PyInt 1)) as ->
    by (unfold ctx; map_lookup).
  reflexivity.
Qed.

(** The page [analyze_news_route] builds after a failed fetch, as the
    results template shows it. *)
Lemma render_results_error_page (topic e : string) (cur next : pyval) :
  e ≠ EmptyString →
  render_page
    (render_template_string HTML_RESULTS_TEMPLATE
       {[ "topic" := PyStr topic;
          "error" := PyStr e;
          "marketaux_url" := PyStr MARKETAUX_WEBSITE_URL;
          "current_page" := cur;
          "next_page" := next ]}) =
  Some {| view_current_page := Some cur;
          view_news := NewsViewError (PyStr e);
          view_search_error := None |}.
Proof.
  intros He. unfold render_page, render_news, render_search_error.
  cbn [page_template page_context render_template_string].
  set (ctx := ({[ "topic" := PyStr topic;
                  "error" := PyStr e;
                  "marketaux_url" := PyStr MARKETAUX_WEBSITE_URL;
                  "current_page" := cur;
                  "next_page" := next ]} : gmap string pyval)).
  assert (ctx !! "error" = Some (PyStr e)) as -> by (unfold ctx; map_lookup).
  assert (ctx !! "current_page" = Some cur) as -> by (unfold ctx; map_lookup).
  cbn [ctx_truthy]. by rewrite py_truthy_nonempty.
Qed.

(** The page [analyze_news_route] builds after a successful fetch, as
    the results template shows it. *)
Lemma render_results_page (topic : string) (items : list (gmap string pyval))
    (cur next : pyval) :
  render_page
    (render_template_string HTML_RESULTS_TEMPLATE
       {[ "topic" := PyStr topic;
          "articles" := PyList (PyDict <$> items);
          "marketaux_url" := PyStr MARKETAUX_WEBSITE_URL;
          "current_page" := cur;
          "next_page" := next ]}) =
  Some {| view_current_page := Some cur;
          view_news :=
            match items with
            | [] => NewsViewEmpty
            | _ => NewsViewList (view_of_article HTML_RESULTS_TEMPLATE <$> items)
                     (Some next)
            end;
          view_search_error := None |}.
Proof.
  unfold render_page, render_news, render_search_error.
  cbn [page_template page_context render_template_string].
  set (ctx := ({[ "topic" := PyStr topic;
                  "articles" := PyList (PyDict <$> items);
                  "marketaux_url" := PyStr MARKETAUX_WEBSITE_URL;
                  "current_page" := cur;
                  "next_page" := next ]} : gmap string pyval)).
  assert (ctx !! "error" = None) as ->.
  { unfold ctx. rewrite !lookup_insert_ne by done. by apply lookup_singleton_ne. }
  assert (ctx !! "articles" = Some (PyList (PyDict <$> items))) as ->
    by (unfold ctx; map_lookup).
  assert (ctx !! "current_page" = Some cur) as -> by (unfold ctx; map_lookup).
  assert (ctx !! "next_page" = Some next) as -> by (unfold ctx; map_lookup).
  cbn [ctx_truthy]. destruct items as [|d items]; [done|].
  cbn [py_truthy fmap list_fmap]. rewrite (render_items_dicts _ (d :: items)).
  reflexivity.
Qed.

(** X21: when the fetch fails, [analyze_news_route] makes no other call
    and answers with the results page for the topic as it was typed:
    the error paragraph with the message of the fetch and no article. *)
Theorem route_shows_the_fetch_error req topic e :
  models_loaded g = true →
  form req !! "topic" = Some topic →
  topic ≠ EmptyString →
  value (fetch_marketaux_news g topic (analyze_current_page req) 10) = NewsError e →
  trace (analyze_news_route g req) =
    trace (fetch_marketaux_news g topic (analyze_current_page req) 10)
  ∧ page_template (value (analyze_news_route g req)) = HTML_RESULTS_TEMPLATE
  ∧ page_context (value (analyze_news_route g req)) !! "topic" = Some (PyStr topic)
  ∧ page_context (value (analyze_news_route g req)) !! "articles" = None
  ∧ render_page (value (analyze_news_route g req)) =
      Some {| view_current_page := Some (PyInt (analyze_current_page req));
              view_news := NewsViewError (PyStr e);
              view_search_error := None |}.
Proof.
  intros Hm Ht Hne Hf.
  destruct (fetch_error_prefix g _ _ _ e Hf) as [_ He].
  assert (analyze_news_route g req =
    Traced (render_template_string HTML_RESULTS_TEMPLATE
              {[ "topic" := PyStr topic;
                 "error" := PyStr e;
                 "marketaux_url" := PyStr MARKETAUX_WEBSITE_URL;
                 "current_page" := PyInt (analyze_current_page req);
                 "next_page" := PyInt (analyze_current_page req + 1) ]})
           (trace (fetch_marketaux_news g topic (analyze_current_page req) 10)))
    as ->.
  { unfold analyze_news_route. rewrite Hm, Ht. cbn [negb].
    destruct topic as [|c topic]; [done|].
    destruct (fetch_marketaux_news g _ _ _) as [v t]. cbn [value trace] in *.
    subst v. cbn. by rewrite app_nil_r. }
  cbn [value trace page_template page_context render_template_string].
  split; [done|]. split; [done|]. split; [map_lookup|].
  split; [|by apply render_results_error_page].
  rewrite !lookup_insert_ne by done. by apply lookup_singleton_ne.
Qed.

(** The loop body only adds the analysis. *)
Lemma analyze_article_adds_analysis no_content (a : gmap string pyval) :
  ∃ x, value (analyze_article g no_content a) = <["analysis" := PyDict x]> a.
Proof.
  unfold analyze_article. destruct (py_truthy _); by eexists.
Qed.

(** X22: with the models loaded, the articles a route hands to its
    template are the fetched articles, in the same number and order,
    each with an "analysis" dictionary added and every other key
    unchanged. *)
Theorem analysis_is_the_only_change req :
  models_loaded g = true →
  (∀ arts,
     value (fetch_marketaux_news g "market news OR finance OR economy"
              (home_current_page req) 5) = NewsArticles arts →
     ∃ items,
       page_context (value (home g req)) !! "initial_articles" =
         Some (PyList (PyDict <$> items))
       ∧ Forall2 (λ a item : gmap string pyval,
                    (∃ x, item !! "analysis" = Some (PyDict x))
                    ∧ ∀ k, k ≠ "analysis" → item !! k = a !! k)
           arts items)
  ∧ (∀ topic arts,
       form req !! "topic" = Some topic →
       topic ≠ EmptyString →
       value (fetch_marketaux_news g topic (analyze_current_page req) 10) =
         NewsArticles arts →
       ∃ items,
         page_context (value (analyze_news_route g req)) !! "articles" =
           Some (PyList (PyDict <$> items))
         ∧ Forall2 (λ a item : gmap string pyval,
                      (∃ x, item !! "analysis" = Some (PyDict x))
                      ∧ ∀ k, k ≠ "analysis" → item !! k = a !! k)
             arts items).
Proof.
  intros Hm.
  assert (Hloop : ∀ no_content (arts : list (gmap string pyval)),
    Forall2 (λ a item : gmap string pyval,
               (∃ x, item !! "analysis" = Some (PyDict x))
               ∧ ∀ k, k ≠ "analysis" → item !! k = a !! k)
      arts (value (mapM (analyze_article g no_content) arts))).
  { intros no_content arts. rewrite mapM_traced_value.
    induction arts as [|a arts IH]; cbn; constructor; [|exact IH].
    destruct (analyze_article_adds_analysis no_content a) as [x ->].
    split; [exists x; apply lookup_insert_eq|].
    intros k Hk. by apply lookup_insert_ne. }
  split.
  - intros arts Hf. destruct (home_loaded g req arts Hm Hf) as [Hv _].
    eexists. split; [exact Hv|apply Hloop].
  - intros topic arts Ht Hne Hf.
    destruct (analyze_news_route_loaded g req topic arts Hm Ht Hne Hf)
      as [Hv _].
    eexists. split; [exact Hv|apply Hloop].
Qed.




(** With the models loaded, the page [home] builds after a successful
    fetch. *)
Lemma home_loaded_page req arts :
  models_loaded g = true →
  value (fetch_marketaux_news g "market news OR finance OR economy"
           (home_current_page req) 5) = NewsArticles arts →
  value (home g req) =
    render_template_string HTML_INDEX_TEMPLATE
      {[ "initial_articles" :=
           PyList (PyDict <$>
             value (mapM (analyze_article g "No content for analysis.") arts));
         "initial_error" := PyNone;
         "marketaux_url" := PyStr MARKETAUX_WEBSITE_URL;
         "current_page" := PyInt (home_current_page req);
         "next_page" := PyInt (home_current_page req + 1) ]}.
Proof.
  intros Hm Hf. unfold home. rewrite Hm. cbn [negb].
  rewrite !value_bind. cbn beta. rewrite Hf.
  rewrite value_bind. reflexivity.
Qed.

Lemma analyze_news_route_loaded_page req topic arts :
  models_loaded g = true →
  form req !! "topic" = Some topic →
  topic ≠ EmptyString →
  value (fetch_marketaux_news g topic (analyze_current_page req) 10) =
    NewsArticles arts →
  value (analyze_news_route g req) =
    render_template_string HTML_RESULTS_TEMPLATE
      {[ "topic" := PyStr topic;
         "articles" :=
           PyList (PyDict <$>
             value (mapM (analyze_article g
                      "No description/snippet available from MarketAux for analysis.")
                      arts));
         "marketaux_url" := PyStr MARKETAUX_WEBSITE_URL;
         "current_page" := PyInt (analyze_current_page req);
         "next_page" := PyInt (analyze_current_page req + 1) ]}.
Proof.
  intros Hm Ht Hne Hf. unfold analyze_news_route. rewrite Hm, Ht. cbn [negb].
  destruct topic as [|c topic]; [done|].
  rewrite !value_bind. cbn beta. rewrite Hf.
  rewrite value_bind. reflexivity.
Qed.

(** X24: with the models loaded and a successful fetch, a page without
    article shows the notice that nothing was found and no "load more"
    control; a page with articles shows one entry per fetched article,
    in order, and the control for the next page, which is the current
    page plus one. *)
Theorem load_more_needs_an_article req :
  models_loaded g = true →
  (∀ arts,
     value (fetch_marketaux_news g "market news OR finance OR economy"
              (home_current_page req) 5) = NewsArticles arts →
     ∃ views,
       length views = length arts
       ∧ render_page (value (home g req)) =
           Some {| view_current_page := Some (PyInt (home_current_page req));
                   view_news :=
                     match arts with
                     | [] => NewsViewEmpty
                     | _ => NewsViewList views
                              (Some (PyInt (home_current_page req + 1)))
                     end;
                   view_search_error := None |})
  ∧ (∀ topic arts,
       form req !! "topic" = Some topic →
       topic ≠ EmptyString →
       value (fetch_marketaux_news g topic (analyze_current_page req) 10) =
         NewsArticles arts →
       ∃ views,
         length views = length arts
         ∧ render_page (value (analyze_news_route g req)) =
             Some {| view_current_page := Some (PyInt (analyze_current_page req));
                     view_news :=
                       match arts with
                       | [] => NewsViewEmpty
                       | _ => NewsViewList views
                                (Some (PyInt (analyze_current_page req + 1)))
                       end;
                     view_search_error := None |}).
Proof.
  intros Hm. split.
  - intros arts Hf. rewrite (home_loaded_page req arts Hm Hf).
    rewrite render_home_page. cbn [py_truthy].
    eexists (view_of_article HTML_INDEX_TEMPLATE <$>
               value (mapM (analyze_article g "No content for analysis.") arts)).
    rewrite mapM_traced_value, !length_fmap. split; [done|].
    by destruct arts.
  - intros topic arts Ht Hne Hf.
    rewrite (analyze_news_route_loaded_page req topic arts Hm Ht Hne Hf).
    rewrite render_results_page.
    eexists (view_of_article HTML_RESULTS_TEMPLATE <$>
               value (mapM (analyze_article g
                  "No description/snippet available from MarketAux for analysis.")
                  arts)).
    rewrite mapM_traced_value, !length_fmap. split; [done|].
    by destruct arts.
Qed.

End RoutesMore.

(** ** The further properties on the test doubles *)

Lemma transport_failure_is_reported_witness :
  @fetch_marketaux_news Sample.offline Sample.loaded " fed " 1 10 =
    Traced (NewsError "Network or API request error: timed out")
           [EvHttpGet "fed" 10 1].
Proof.
  exact (@transport_failure_is_reported Sample.offline Sample.loaded
           " fed " 1 10 "timed out" ltac:(discriminate) eq_refl).
Defined.

Lemma api_error_body_reports_code_and_message_witness :
  value (@fetch_marketaux_news (Sample.sample_env (Responded Sample.refused))
           Sample.loaded "fed" 1 10) =
    NewsError "MarketAux News API Error (invalid_api_token): Invalid API token.".
Proof.
  refine (@api_error_body_reports_code_and_message
            (Sample.sample_env (Responded Sample.refused)) Sample.loaded
            "fed" 1 10 Sample.refused _
            {[ "code" := PyStr "invalid_api_token";
               "message" := PyStr "Invalid API token." ]}
            ltac:(discriminate) eq_refl ltac:(left; reflexivity) eq_refl _ eq_refl).
  intros l Hl. vm_compute in Hl. discriminate Hl.
Defined.

Lemma unexpected_body_is_reported_witness :
  value (@fetch_marketaux_news (Sample.sample_env (Responded Sample.odd_body))
           Sample.loaded "fed" 1 10) =
    NewsError "Unexpected response format received from MarketAux.".
Proof.
  refine (@unexpected_body_is_reported
            (Sample.sample_env (Responded Sample.odd_body)) Sample.loaded
            "fed" 1 10 Sample.odd_body _
            ltac:(discriminate) eq_refl ltac:(left; reflexivity) eq_refl _ _).
  - intros l Hl. vm_compute in Hl. discriminate Hl.
  - intros d Hd. vm_compute in Hd. discriminate Hd.
Defined.

Lemma feed_is_fetched :
  value (@fetch_marketaux_news (Sample.sample_env (Responded Sample.feed))
           Sample.loaded "fed" 1 10) =
    NewsArticles (@normalized (Sample.sample_env (Responded Sample.feed))
                    <$> Sample.feed_records).
Proof. vm_compute. reflexivity. Qed.


Lemma fetched_articles_have_five_keys_witness :
  Forall (λ a : gmap string pyval,
            dom a = article_keys ∧ a !! "analysis" = None)
    (@normalized (Sample.sample_env (Responded Sample.feed))
       <$> Sample.feed_records).
Proof.
  exact (@fetched_articles_have_five_keys
           (Sample.sample_env (Responded Sample.feed)) Sample.loaded
           "fed" 1 10 _ feed_is_fetched).
Defined.

Lemma one_bad_record_fails_the_page_witness :
  ∃ ty attr,
    value (@fetch_marketaux_news (Sample.sample_env (Responded Sample.numeric_date))
             Sample.loaded "fed" 1 10) =
      NewsError ("An unexpected error occurred: "
                 +:+ @exc_str (Sample.sample_env (Responded Sample.numeric_date))
                       (AttributeError ty attr)).
Proof.
  exact (@one_bad_record_fails_the_page
           (Sample.sample_env (Responded Sample.numeric_date)) Sample.loaded
           "fed" 1 10 Sample.numeric_date _ _
           ltac:(discriminate) eq_refl ltac:(left; reflexivity) eq_refl
           eq_refl eq_refl).
Defined.

Lemma placeholders_stand_for_missing_keys_witness :
  @normalized Sample.offline Sample.record_f !! "title" = Some PyNone
  ∧ @normalized Sample.offline Sample.record_f !! "source" =
      Some (PyStr "Unknown Source").
Proof.
  destruct (@placeholders_stand_for_missing_keys Sample.offline
              Sample.record_f (@normalized Sample.offline Sample.record_f))
    as (_ & _ & P3 & P4 & _).
  - apply normalize_article_dict. date_is_text_by_lookup.
  - split; [exact (P4 eq_refl) | exact P3].
Defined.

Lemma fetch_errors_are_labelled_witness :
  Exists (λ p, String.prefix p "HTTP error connecting to MarketAux: Too many requests" = true)
    fetch_error_prefixes
  ∧ "HTTP error connecting to MarketAux: Too many requests" ≠ EmptyString.
Proof.
  exact (@fetch_errors_are_labelled
           (Sample.sample_env (Responded Sample.rate_limited)) Sample.loaded
           "fed" 1 10 _ eq_refl).
Defined.

Lemma analyze_content_unavailable_witness :
  @analyze_content Sample.offline Sample.degraded (PyStr "Fed raises rates") =
    Traced {[ "error" := PyStr "ML models not available." ]}
           [EvAnalyze (PyStr "Fed raises rates")].
Proof.
  exact (@analyze_content_unavailable Sample.offline Sample.degraded
           (PyStr "Fed raises rates") (or_introl eq_refl)).
Defined.

Lemma analyze_content_sentinel_witness :
  @analyze_content Sample.offline Sample.loaded PyNone =
    Traced {[ "summary" := PyStr "No content provided for analysis.";
              "sentiment" := PyStr "N/A" ]}
           [EvAnalyze PyNone].
Proof.
  exact (@analyze_content_sentinel Sample.offline Sample.loaded PyNone
           _ _ eq_refl eq_refl eq_refl (or_introl eq_refl)).
Defined.

Lemma analyze_content_backend_calls_witness :
  trace (@analyze_content Sample.offline Sample.loaded (PyStr "Fed raises rates")) =
    [EvAnalyze (PyStr "Fed raises rates"); EvTokenizer "Fed raises rates";
     EvSummarizer "Fed raises rates"; EvSentiment "Fed raises rates"]
  ∧ trace (@analyze_content Sample.offline Sample.echoing (PyStr Sample.long_text)) =
      [EvAnalyze (PyStr Sample.long_text); EvTokenizer Sample.long_text;
       EvSentiment (Sample.str_repeat 512 "é")].
Proof.
  split.
  - exact (@analyze_content_backend_calls Sample.offline Sample.loaded
             "Fed raises rates" _ _ _ eq_refl eq_refl eq_refl eq_refl
             ltac:(discriminate)).
  - rewrite (@analyze_content_backend_calls Sample.offline Sample.echoing
               Sample.long_text _ _ _ eq_refl eq_refl eq_refl eq_refl
               ltac:(discriminate)).
    vm_compute. reflexivity.
Defined.

Lemma sentiment_stage_input_witness :
  value (@analyze_content Sample.offline Sample.echoing (PyStr Sample.accented_text))
    !! "sentiment" = Some (PyStr Sample.accented_text)
  ∧ ∃ input,
      EvSentiment input
        ∈ trace (@analyze_content Sample.offline Sample.echoing (PyStr Sample.long_text))
      ∧ str_len input = 512%nat
      ∧ String.prefix input Sample.long_text = true.
Proof.
  split.
  - destruct (@sentiment_stage_input Sample.offline Sample.echoing
                Sample.accented_text _ _ eq_refl eq_refl eq_refl
                ltac:(discriminate)) as [P _].
    exact (proj1 (P ltac:(vm_compute; lia))).
  - destruct (@sentiment_stage_input Sample.offline Sample.echoing
                Sample.long_text _ _ eq_refl eq_refl eq_refl
                ltac:(discriminate)) as [_ P].
    exact (P ltac:(vm_compute; lia)).
Defined.

Lemma home_shows_the_fetch_error_witness :
  let E := Sample.sample_env (Responded Sample.rate_limited) in
  render_page (value (@home E Sample.loaded Sample.third_page)) =
    Some {| view_current_page := Some (PyInt 3);
            view_news :=
              NewsViewError
                (PyStr "HTTP error connecting to MarketAux: Too many requests");
            view_search_error := None |}.
Proof.
  cbv zeta.
  destruct (@home_shows_the_fetch_error
              (Sample.sample_env (Responded Sample.rate_limited)) Sample.loaded
              Sample.third_page _ eq_refl) as (_ & _ & _ & P).
  exact P.
Defined.

Lemma degraded_home_shows_no_article_witness :
  let E := Sample.sample_env (Responded Sample.feed) in
  render_page (value (@home E Sample.degraded Sample.first_page)) =
    Some {| view_current_page := Some (PyInt 1);
            view_news :=
              NewsViewError
                (PyStr "ML Models failed to load. Analysis functionality may be limited.");
            view_search_error := None |}.
Proof.
  cbv zeta.
  destruct (@degraded_home_shows_no_article
              (Sample.sample_env (Responded Sample.feed)) Sample.degraded
              Sample.first_page eq_refl) as [P _].
  refine (P (@normalized (Sample.sample_env (Responded Sample.feed))
               <$> Sample.feed_records) _).
  vm_compute. reflexivity.
Defined.

Lemma routes_send_one_request_witness :
  let E := Sample.sample_env (Responded Sample.feed) in
  http_calls (trace (@home E Sample.loaded Sample.third_page)) =
    [("market news OR finance OR economy", 5, 3)]
  ∧ http_calls (trace (@analyze_news_route E Sample.loaded Sample.third_page)) =
      [("fed", 10, 3)]
  ∧ http_calls (trace (@analyze_news_route E Sample.loaded Sample.padded_search)) =
      [("fed", 10, 1)].
Proof.
  cbv zeta.
  destruct (@routes_send_one_request
              (Sample.sample_env (Responded Sample.feed)) Sample.loaded
              Sample.third_page ltac:(discriminate)) as [P Q].
  destruct (@routes_send_one_request
              (Sample.sample_env (Responded Sample.feed)) Sample.loaded
              Sample.padded_search ltac:(discriminate)) as [_ R].
  split; [exact P|]. split.
  - exact (Q "fed" eq_refl eq_refl ltac:(discriminate)).
  - rewrite (R Sample.padded_topic eq_refl eq_refl ltac:(discriminate)).
    vm_compute. reflexivity.
Defined.

Lemma blank_topic_is_searched_witness :
  http_calls (trace (@analyze_news_route (Sample.sample_env (Responded Sample.feed))
                       Sample.loaded Sample.blank_search)) =
    [(EmptyString, 10, 1)]
  ∧ http_calls (trace (@analyze_news_route (Sample.sample_env (Responded Sample.feed))
                         Sample.loaded Sample.wide_blank_search)) =
      [(EmptyString, 10, 1)].
Proof.
  split.
  - exact (@blank_topic_is_searched
             (Sample.sample_env (Responded Sample.feed)) Sample.loaded
             Sample.blank_search "  " ltac:(discriminate) eq_refl eq_refl
             ltac:(discriminate) eq_refl).
  - exact (@blank_topic_is_searched
             (Sample.sample_env (Responded Sample.feed)) Sample.loaded
             Sample.wide_blank_search Sample.wide_blank_topic ltac:(discriminate) eq_refl eq_refl
             ltac:(discriminate) eq_refl).
Defined.

Lemma route_without_topic_witness :
  trace (@analyze_news_route Sample.offline Sample.loaded Sample.empty_search) = []
  ∧ render_page (value (@analyze_news_route Sample.offline Sample.loaded
                          Sample.empty_search)) =
      Some {| view_current_page := Some (PyInt 1);
              view_news := NewsViewEmpty;
              view_search_error :=
                Some (PyStr "Please enter a news topic or ticker.") |}.
Proof.
  destruct (@route_without_topic Sample.offline Sample.loaded
              Sample.empty_search eq_refl (or_introl eq_refl))
    as (P & _ & Q).
  exact (conj P Q).
Defined.

Lemma route_shows_the_fetch_error_witness :
  let E := Sample.sample_env (Responded Sample.rate_limited) in
  render_page (value (@analyze_news_route E Sample.loaded Sample.third_page)) =
    Some {| view_current_page := Some (PyInt 3);
            view_news :=
              NewsViewError
                (PyStr "HTTP error connecting to MarketAux: Too many requests");
            view_search_error := None |}.
Proof.
  cbv zeta.
  destruct (@route_shows_the_fetch_error
              (Sample.sample_env (Responded Sample.rate_limited)) Sample.loaded
              Sample.third_page "fed" _ eq_refl eq_refl ltac:(discriminate)
              eq_refl) as (_ & _ & _ & _ & P).
  exact P.
Defined.

Lemma analysis_is_the_only_change_witness :
  let E := Sample.sample_env (Responded Sample.feed) in
  ∃ items,
    page_context (value (@analyze_news_route E Sample.loaded Sample.first_page))
      !! "articles" = Some (PyList (PyDict <$> items))
    ∧ Forall2 (λ a item : gmap string pyval,
                 (∃ x, item !! "analysis" = Some (PyDict x))
                 ∧ ∀ k, k ≠ "analysis" → item !! k = a !! k)
        (@normalized E <$> Sample.feed_records) items.
Proof.
  cbv zeta.
  destruct (@analysis_is_the_only_change
              (Sample.sample_env (Responded Sample.feed)) Sample.loaded
              Sample.first_page eq_refl) as [_ P].
  exact (P "fed" _ eq_refl ltac:(discriminate) feed_is_fetched).
Defined.


Lemma load_more_needs_an_article_witness :
  let E := Sample.sample_env (Responded Sample.feed) in
  ∃ views,
    length views = 3%nat
    ∧ render_page (value (@analyze_news_route E Sample.loaded Sample.third_page)) =
        Some {| view_current_page := Some (PyInt 3);
                view_news := NewsViewList views (Some (PyInt 4));
                view_search_error := None |}.
Proof.
  cbv zeta.
  destruct (@load_more_needs_an_article
              (Sample.sample_env (Responded Sample.feed)) Sample.loaded
              Sample.third_page eq_refl) as [_ P].
  refine (P "fed" (@normalized (Sample.sample_env (Responded Sample.feed))
                     <$> Sample.feed_records)
            eq_refl ltac:(discriminate) _).
  vm_compute. reflexivity.
Defined.
